(** * geojson-to-gpx: the conversion of GeoJSON features to a GPX document

    A shallow embedding of [src/index.ts].  The single exported function
    [GeoJsonToGpx] builds a DOM tree by mutation; every node it creates is
    finished before it is appended to its parent and is appended exactly
    once, so the tree is modelled by value: a helper that mutates the
    element it is given returns the updated element, and the two closure
    arrays [wpts] and [trks] are threaded as an explicit state.

    Inputs inhabit their declared TypeScript types: an optional field is
    a value or [undefined], never [null]; a position is an array of
    numbers without holes; a geometry is one of the members of the
    [Geometry] union of the geojson package.  Property bags are
    [{ [name: string]: any } | null] and are modelled as dynamically typed
    values, since the conversion tests them at run time. *)

From stdpp Require Import base strings list gmap pretty.

#[local] Set Warnings "-register-all".

(** ** JavaScript values *)

(** JavaScript numbers are IEEE doubles; the conversion only ever turns
    them into strings ([String(lat)]) or tests them for truthiness, so the
    number type is kept abstract behind these two operations. *)
Class JsNumber (number : Type) := {
  Number_toString : number → string;
  Number_toBoolean : number → bool
}.

(** Integers are one instance, used for concrete inputs. *)
Definition Z_JsNumber : JsNumber Z := {|
  Number_toString := pretty;
  Number_toBoolean := fun z => negb (Z.eqb z 0)
|}.

(** ** The DOM tree *)

Inductive Node :=
| ElementNode (e : Element)
| TextNode (data : string)
| ProcessingInstructionNode (target data : string)
with Element :=
| mkElement (namespaceURI tagName : string)
            (attributes : list (string * string))
            (childNodes : list Node).

Definition namespaceURI (e : Element) : string :=
  match e with mkElement ns _ _ _ => ns end.
Definition tagName (e : Element) : string :=
  match e with mkElement _ t _ _ => t end.
Definition attributes (e : Element) : list (string * string) :=
  match e with mkElement _ _ a _ => a end.
Definition childNodes (e : Element) : list Node :=
  match e with mkElement _ _ _ c => c end.

Record XMLDocument := mkDocument {
  documentNamespace : string;
  documentChildNodes : list Node
}.

Definition GPX_NS : string := "http://www.topografix.com/GPX/1/1".

(** [document.implementation.createDocument(ns, '')]: a document with no
    document element. *)
Definition createDocument (ns : string) : XMLDocument := mkDocument ns [].

Definition documentAppendChild (doc : XMLDocument) (n : Node) : XMLDocument :=
  mkDocument (documentNamespace doc) (documentChildNodes doc ++ [n]).

Definition createElementNS (ns tag : string) : Element :=
  mkElement ns tag [] [].

(** [el.setAttribute(name, value)]: an attribute of that name is
    overwritten in place, a new one is added at the end. *)
Fixpoint setAttributeIn (name val : string) (attrs : list (string * string))
  : list (string * string) :=
  match attrs with
  | [] => [(name, val)]
  | (k, v) :: rest =>
      if String.eqb k name then (k, val) :: rest
      else (k, v) :: setAttributeIn name val rest
  end.

Definition setAttribute (el : Element) (name val : string) : Element :=
  mkElement (namespaceURI el) (tagName el)
            (setAttributeIn name val (attributes el)) (childNodes el).

Definition getAttribute (el : Element) (name : string) : option string :=
  snd <$> List.find (fun kv => String.eqb (fst kv) name) (attributes el).

(** [parent.appendChild(child)] for a child that is in no tree yet. *)
Definition appendChild (parent : Element) (child : Node) : Element :=
  mkElement (namespaceURI parent) (tagName parent) (attributes parent)
            (childNodes parent ++ [child]).

(** The element children of an element, and those of one tag. *)
Definition asElement (n : Node) : option Element :=
  match n with ElementNode c => Some c | _ => None end.

Definition children (e : Element) : list Element :=
  omap asElement (childNodes e).

Definition hasTag (tag : string) (e : Element) : bool :=
  String.eqb (tagName e) tag.

Definition childrenNamed (tag : string) (e : Element) : list Element :=
  List.filter (hasTag tag) (children e).

(** Every element of a tree, in document order: the element itself, then
    the elements below each of its children. *)
Fixpoint elementsOf (e : Element) : list Element :=
  match e with
  | mkElement _ _ _ nodes => e :: flat_map elementsOfNode nodes
  end
with elementsOfNode (n : Node) : list Element :=
  match n with
  | ElementNode c => elementsOf c
  | _ => []
  end.

(** The document element: the first element among the children of the
    document. *)
Definition documentElement (doc : XMLDocument) : option Element :=
  head (omap asElement (documentChildNodes doc)).

(** Every element of a document, and those of one tag. *)
Definition allElements (doc : XMLDocument) : list Element :=
  flat_map elementsOfNode (documentChildNodes doc).

Definition elementsNamed (tag : string) (doc : XMLDocument) : list Element :=
  List.filter (hasTag tag) (allElements doc).

(** Every element of the tree of [e] has its tag among [tags]. *)
Definition tagsWithin (tags : list string) (e : Element) : Prop :=
  Forall (fun x => tagName x ∈ tags) (elementsOf e).

(** An element of the GPX namespace with tag [tag], whose child nodes are
    all elements, their trees having tags among [inner] only. *)
Definition rooted (tag : string) (inner : list string) (e : Element) : Prop :=
  ∃ attrs l,
    e = mkElement GPX_NS tag attrs (ElementNode <$> l)
    ∧ Forall (tagsWithin inner) l.

(** The tags found below a [wpt] or [trkpt], below a [trk], and below the
    [metadata] element. *)
Definition ptInnerTags : list string :=
  ["ele"; "time"; "name"; "desc"; "src"; "type"].
Definition trkInnerTags : list string :=
  ["trkseg"; "trkpt"; "ele"; "time"; "name"; "desc"; "src"; "type"].
Definition metadataInnerTags : list string :=
  ["name"; "desc"; "author"; "email"; "link"; "text"; "type"; "copyright";
   "year"; "license"; "time"; "keywords"].

(** ** Option records (the declared interfaces)

    An optional field [f?: T] is an [option T]: [None] is [undefined]. *)

Record Bounds := mkBounds {
  minlat : string; minlon : string; maxlat : string; maxlon : string
}.

Record Copyright := mkCopyright {
  copyright_author : option string;
  copyright_year : option string;
  copyright_license : option string
}.

(** [href] is declared as a required string; the guard [!href] of the link
    factory treats a missing one like an empty one, so the model lets it
    be absent as well. *)
Record Link := mkLink {
  link_href : option string;
  link_text : option string;
  link_type : option string
}.

Record Person := mkPerson {
  person_name : option string;
  person_email : option string;
  person_link : option Link
}.

Record MetaData := mkMetaData {
  meta_name : option string;
  meta_desc : option string;
  meta_author : option Person;
  meta_copyright : option Copyright;
  meta_link : option Link;
  meta_time : option string;
  meta_keywords : option string;
  meta_bounds : option Bounds
}.

Record Options := mkOptions {
  creator : option string;
  version : option string;
  metadata : option MetaData
}.

(** The two arrays of the closure, [wpts] and [trks]. *)
Record Collector := mkCollector {
  wpts : list Element;
  trks : list Element
}.

Definition pushWpt (st : Collector) (e : Element) : Collector :=
  mkCollector (wpts st ++ [e]) (trks st).
Definition pushTrk (st : Collector) (e : Element) : Collector :=
  mkCollector (wpts st) (trks st ++ [e]).

Section Conversion.
Context `{JsNumber number}.

(** A JavaScript value as it can sit in a GeoJSON property bag
    ([{ [name: string]: any } | null]) or be handed to a helper.  An array
    is an object for every test the conversion makes. *)
Inductive value :=
| VUndefined
| VNull
| VBoolean (b : bool)
| VNumber (n : number)
| VString (s : string)
| VObject (fields : gmap string value).

Definition typeof (v : value) : string :=
  match v with
  | VUndefined => "undefined"
  | VNull => "object"
  | VBoolean _ => "boolean"
  | VNumber _ => "number"
  | VString _ => "string"
  | VObject _ => "object"
  end.

(** Truthiness, as tested by [if (v)], [v && ...] and [v || ...]. *)
Definition ToBoolean (v : value) : bool :=
  match v with
  | VUndefined | VNull => false
  | VBoolean b => b
  | VNumber n => Number_toBoolean n
  | VString s => negb (String.eqb s "")
  | VObject _ => true
  end.

(** [String(v)]. *)
Definition ToString (v : value) : string :=
  match v with
  | VUndefined => "undefined"
  | VNull => "null"
  | VBoolean true => "true"
  | VBoolean false => "false"
  | VNumber n => Number_toString n
  | VString s => s
  | VObject _ => "[object Object]"
  end.

(** [o[key]] on an object; the conversion reads a property only behind a
    guard that [o] is an object. *)
Definition Get (o : value) (key : string) : value :=
  match o with
  | VObject fields => default VUndefined (fields !! key)
  | _ => VUndefined
  end.

Definition ofString (o : option string) : value :=
  match o with Some s => VString s | None => VUndefined end.

Definition ofNumber (o : option number) : value :=
  match o with Some n => VNumber n | None => VUndefined end.

(** A [Link] seen as the plain object it is at run time. *)
Definition withField (key : string) (o : option string) (m : gmap string value)
  : gmap string value :=
  match o with Some s => <[key := VString s]> m | None => m end.

Definition LinkObject (l : Link) : value :=
  VObject (withField "href" (link_href l)
          (withField "text" (link_text l)
          (withField "type" (link_type l) ∅))).

(** ** GeoJSON input (the types of the geojson package) *)

Definition Position := list number.

Inductive Geometry :=
| Point (coordinates : Position)
| MultiPoint (coordinates : list Position)
| LineString (coordinates : list Position)
| MultiLineString (coordinates : list (list Position))
| Polygon (coordinates : list (list Position))
| MultiPolygon (coordinates : list (list (list Position)))
| GeometryCollection (geometries : list Geometry).

Definition geometryType (g : Geometry) : string :=
  match g with
  | Point _ => "Point"
  | MultiPoint _ => "MultiPoint"
  | LineString _ => "LineString"
  | MultiLineString _ => "MultiLineString"
  | Polygon _ => "Polygon"
  | MultiPolygon _ => "MultiPolygon"
  | GeometryCollection _ => "GeometryCollection"
  end.

Record Feature := mkFeature {
  geometry : Geometry;
  properties : value
}.

(** The declared parameter type is [Feature | FeatureCollection]; the
    remaining member of the package's [GeoJSON] union, a bare geometry, is
    what reaches the [default] arm of the top-level switch. *)
Inductive GeoJSON :=
| IsFeature (feature : Feature)
| IsFeatureCollection (features : list Feature)
| IsGeometry (g : Geometry).

(** ** The helpers of [GeoJsonToGpx] *)

Definition createElementWithNS (tag : string) : Element :=
  createElementNS GPX_NS tag.

(** Creates a new tag with content and appends it to the parent. *)
Definition createTagInParentElement (parent : Element) (tag : string)
    (content : value) : Element :=
  match content with
  | VUndefined => parent
  | _ =>
      let element := createElementWithNS tag in
      let contentEl := TextNode (ToString content) in
      let element := appendChild element contentEl in
      appendChild parent (ElementNode element)
  end.

(** Takes supported properties, creates node, and appends to parent. *)
Definition addSupportedPropertiesFromObject (el : Element)
    (supports : list string) (properties : value) : Element :=
  if ToBoolean properties && String.eqb (typeof properties) "object" then
    fold_left
      (fun el key =>
         let value := Get properties key in
         if ToBoolean value && String.eqb (typeof value) "string"
            && existsb (String.eqb key) supports
         then createTagInParentElement el key value
         else el)
      supports el
  else el.

(** Creates a link element. *)
Definition createLinkInParentElement (parent : Element) (props : Link)
  : Element :=
  let href := ofString (link_href props) in
  if negb (ToBoolean href) then parent
  else
    let el := createElementWithNS "link" in
    let el := setAttribute el "href" (ToString href) in
    let el := addSupportedPropertiesFromObject el ["text"; "type"]
                (LinkObject props) in
    appendChild parent (ElementNode el).

(** Creates a [trk] from GeoJsonProperties. *)
Definition createTrk (properties : value) : Element :=
  let el := createElementWithNS "trk" in
  let supports := ["name"; "desc"; "src"; "type"] in
  addSupportedPropertiesFromObject el supports properties.

(** [wpt] and [trkpt] are compatible elements. *)
Definition createPt (type : string) (position : Position)
    (properties : value) : Element :=
  let lon := ofNumber (position !! 0%nat) in
  let lat := ofNumber (position !! 1%nat) in
  let ele := ofNumber (position !! 2%nat) in
  let time := ofNumber (position !! 3%nat) in
  let el := createElementWithNS type in
  let el := setAttribute el "lat" (ToString lat) in
  let el := setAttribute el "lon" (ToString lon) in
  let el := createTagInParentElement el "ele" ele in
  let el := createTagInParentElement el "time" time in
  let supports := ["name"; "desc"; "src"; "type"] in
  addSupportedPropertiesFromObject el supports properties.

(** Creates a [trkseg] from an array of points; the points get no
    properties. *)
Definition createTrkSeg (coordinates : list Position) : Element :=
  let el := createElementWithNS "trkseg" in
  fold_left
    (fun el point =>
       appendChild el (ElementNode (createPt "trkpt" point VUndefined)))
    coordinates el.

(** Interpret a GeoJSON feature: the switch on [geometry.type]. *)
Definition interpretFeature (feature : Feature) (st : Collector) : Collector :=
  let properties := properties feature in
  match geometry feature with
  | Polygon _ => st
  | Point coordinates =>
      pushWpt st (createPt "wpt" coordinates properties)
  | MultiPoint coordinates =>
      fold_left
        (fun st coord => pushWpt st (createPt "wpt" coord properties))
        coordinates st
  | LineString coordinates =>
      let lineTrk := createTrk properties in
      let trkseg := createTrkSeg coordinates in
      let lineTrk := appendChild lineTrk (ElementNode trkseg) in
      pushTrk st lineTrk
  | MultiLineString coordinates =>
      let trk := createTrk properties in
      let trk :=
        fold_left
          (fun trk pos =>
             let trkseg := createTrkSeg pos in
             appendChild trk (ElementNode trkseg))
          coordinates trk in
      pushTrk st trk
  | _ => st
  end.

(** The body of the [if] that adds the options meta data: the [metadata]
    element built from [options.metadata]. *)
Definition createMetadata (meta : MetaData) : Element :=
  let metadata := createElementWithNS "metadata" in
  let metadata := createTagInParentElement metadata "name"
                    (ofString (meta_name meta)) in
  let metadata := createTagInParentElement metadata "desc"
                    (ofString (meta_desc meta)) in
  let metadata :=
    match meta_author meta with
    | Some meta_author =>
        let author := createElementWithNS "author" in
        let author := createTagInParentElement author "name"
                        (ofString (person_name meta_author)) in
        let author := createTagInParentElement author "email"
                        (ofString (person_email meta_author)) in
        let author :=
          match person_link meta_author with
          | Some link => createLinkInParentElement author link
          | None => author
          end in
        appendChild metadata (ElementNode author)
    | None => metadata
    end in
  let metadata :=
    match meta_copyright meta with
    | Some meta_copyright =>
        let copyright := createElementWithNS "copyright" in
        let copyright :=
          if ToBoolean (ofString (copyright_author meta_copyright))
          then setAttribute copyright "author"
                 (ToString (ofString (copyright_author meta_copyright)))
          else copyright in
        let copyright := createTagInParentElement copyright "year"
                           (ofString (copyright_year meta_copyright)) in
        let copyright := createTagInParentElement copyright "license"
                           (ofString (copyright_license meta_copyright)) in
        appendChild metadata (ElementNode copyright)
    | None => metadata
    end in
  let metadata :=
    match meta_link meta with
    | Some link => createLinkInParentElement metadata link
    | None => metadata
    end in
  let metadata := createTagInParentElement metadata "time"
                    (ofString (meta_time meta)) in
  let metadata := createTagInParentElement metadata "keywords"
                    (ofString (meta_keywords meta)) in
  metadata.

Definition defaultPackageName : string := "@dwayneparton/geojson-to-gpx".

(** The double quote, for the data of the XML declaration. *)
Definition dquote : string := String (Ascii.ascii_of_nat 34) EmptyString.

Definition GeoJsonToGpx (geoJson : GeoJSON) (options : option Options)
  : XMLDocument :=
  (* Create root XMLDocument *)
  let doc := createDocument GPX_NS in
  let instruct :=
    ProcessingInstructionNode "xml"
      ("version=" +:+ dquote +:+ "1.0" +:+ dquote +:+
       " encoding=" +:+ dquote +:+ "UTF-8" +:+ dquote) in
  let doc := documentAppendChild doc instruct in
  (* Set up default options: options?.creator || defaultPackageName *)
  let creator :=
    let c := match options with
             | Some o => ofString (creator o)
             | None => VUndefined
             end in
    if ToBoolean c then ToString c else defaultPackageName in
  (* Set up base GPX Element *)
  let gpx := createElementWithNS "gpx" in
  let gpx := setAttribute gpx "version" "1.1" in
  let gpx := setAttribute gpx "creator" creator in
  let st := mkCollector [] [] in
  (* Add Options Meta Data *)
  let gpx :=
    match options with
    | Some o =>
        match metadata o with
        | Some meta => appendChild gpx (ElementNode (createMetadata meta))
        | None => gpx
        end
    | None => gpx
    end in
  (* Process GeoJSON *)
  let st :=
    match geoJson with
    | IsFeature feature => interpretFeature feature st
    | IsFeatureCollection features =>
        fold_left (fun st feature => interpretFeature feature st) features st
    | IsGeometry _ => st
    end in
  (* Order matters for valid GPX: wpt comes before trks *)
  let gpx :=
    fold_left (fun gpx wpt => appendChild gpx (ElementNode wpt)) (wpts st) gpx in
  let gpx :=
    fold_left (fun gpx trk => appendChild gpx (ElementNode trk)) (trks st) gpx in
  (* Append GPX to DOC *)
  documentAppendChild doc (ElementNode gpx).

(** ** Vocabulary of the statements *)

(** A leaf tag: an element of the GPX namespace holding one text node. *)
Definition leaf (tag text : string) : Element :=
  mkElement GPX_NS tag [] [TextNode text].

(** The parent with the given elements appended as children, in order. *)
Definition appendChildren (parent : Element) (l : list Element) : Element :=
  mkElement (namespaceURI parent) (tagName parent) (attributes parent)
            (childNodes parent ++ (ElementNode <$> l)).

(** The leaf of a content that may be undefined: present when defined. *)
Definition optLeaf (tag : string) (content : value) : list Element :=
  match content with
  | VUndefined => []
  | _ => [leaf tag (ToString content)]
  end.

(** What is copied for one key of a property bag: the value found under
    the key when the bag is an object and the value a non-empty string. *)
Definition copiedString (properties : value) (key : string) : option string :=
  match properties with
  | VObject fields =>
      match fields !! key with
      | Some (VString s) => if String.eqb s "" then None else Some s
      | _ => None
      end
  | _ => None
  end.

Definition propertyLeaves (supports : list string) (properties : value)
  : list Element :=
  omap (fun key => leaf key <$> copiedString properties key) supports.

Definition pointSupports : list string := ["name"; "desc"; "src"; "type"].
Definition linkSupports : list string := ["text"; "type"].

(** The features the top-level switch hands to [interpretFeature], in the
    order it does. *)
Definition featuresOf (geoJson : GeoJSON) : list Feature :=
  match geoJson with
  | IsFeature feature => [feature]
  | IsFeatureCollection features => features
  | IsGeometry _ => []
  end.

(** What one feature pushes on each array. *)
Definition featureWpts (feature : Feature) : list Element :=
  wpts (interpretFeature feature (mkCollector [] [])).
Definition featureTrks (feature : Feature) : list Element :=
  trks (interpretFeature feature (mkCollector [] [])).

(** The [metadata] child of the root, if any. *)
Definition metadataOf (options : option Options) : list Element :=
  match options with
  | Some o =>
      match metadata o with
      | Some meta => [createMetadata meta]
      | None => []
      end
  | None => []
  end.

(** The value of the [creator] attribute. *)
Definition creatorOf (options : option Options) : string :=
  match options with
  | Some o =>
      match creator o with
      | Some c => if String.eqb c "" then defaultPackageName else c
      | None => defaultPackageName
      end
  | None => defaultPackageName
  end.

(** The leaf of an optional string field, and of an optional number:
    present exactly when the field is defined. *)
Definition stringLeaf (tag : string) (o : option string) : list Element :=
  match o with Some s => [leaf tag s] | None => [] end.

Definition numberLeaf (tag : string) (o : option number) : list Element :=
  match o with Some n => [leaf tag (Number_toString n)] | None => [] end.

(** A string field that is defined and not empty. *)
Definition nonEmpty (o : option string) : option string :=
  match o with
  | Some s => if String.eqb s "" then None else Some s
  | None => None
  end.

Definition nonEmptyLeaf (tag : string) (o : option string) : list Element :=
  match nonEmpty o with Some s => [leaf tag s] | None => [] end.

(** The [link] element of a [Link]: none unless [href] is non-empty. *)
Definition linkElement (href : string) (text type : option string) : Element :=
  mkElement GPX_NS "link" [("href", href)]
    (ElementNode <$> (nonEmptyLeaf "text" text ++ nonEmptyLeaf "type" type)).

Definition linkOf (o : option Link) : list Element :=
  match o with
  | Some l =>
      match nonEmpty (link_href l) with
      | Some href => [linkElement href (link_text l) (link_type l)]
      | None => []
      end
  | None => []
  end.

(** The [author] and [copyright] sub-elements of the metadata. *)
Definition authorOf (o : option Person) : list Element :=
  match o with
  | Some p =>
      [mkElement GPX_NS "author" []
         (ElementNode <$> (stringLeaf "name" (person_name p)
                           ++ stringLeaf "email" (person_email p)
                           ++ linkOf (person_link p)))]
  | None => []
  end.

Definition copyrightOf (o : option Copyright) : list Element :=
  match o with
  | Some c =>
      [mkElement GPX_NS "copyright"
         match nonEmpty (copyright_author c) with
         | Some a => [("author", a)]
         | None => []
         end
         (ElementNode <$> (stringLeaf "year" (copyright_year c)
                           ++ stringLeaf "license" (copyright_license c)))]
  | None => []
  end.

(** The children of the [metadata] element, in order. *)
Definition metadataChildren (meta : MetaData) : list Element :=
  stringLeaf "name" (meta_name meta)
  ++ stringLeaf "desc" (meta_desc meta)
  ++ authorOf (meta_author meta)
  ++ copyrightOf (meta_copyright meta)
  ++ linkOf (meta_link meta)
  ++ stringLeaf "time" (meta_time meta)
  ++ stringLeaf "keywords" (meta_keywords meta).

(** The XML declaration and the root the conversion is expected to build. *)
Definition xmlDeclaration : Node :=
  ProcessingInstructionNode "xml"
    ("version=" +:+ dquote +:+ "1.0" +:+ dquote +:+
     " encoding=" +:+ dquote +:+ "UTF-8" +:+ dquote).

Definition rootOf (geoJson : GeoJSON) (options : option Options) : Element :=
  mkElement GPX_NS "gpx"
    [("version", "1.1"); ("creator", creatorOf options)]
    (ElementNode <$> (metadataOf options
                      ++ flat_map featureWpts (featuresOf geoJson)
                      ++ flat_map featureTrks (featuresOf geoJson))).

End Conversion.

(** ** Sample inputs, over integer coordinates *)

Definition campProperties : gmap string (@value Z) :=
  {[ "name" := VString "Camp"; "desc" := VString "";
     "src" := VNumber 7%Z; "colour" := VString "red" ]}.

Definition campFeature : @Feature Z :=
  mkFeature (Point [(-109)%Z; 46%Z; 3205%Z]) (VObject campProperties).

Definition trailFeature : @Feature Z :=
  mkFeature (LineString [[0%Z; 0%Z]; [1%Z; 1%Z]])
    (VObject {[ "name" := VString "Trail" ]}).

Definition polygonFeature : @Feature Z :=
  mkFeature (Polygon [[[0%Z; 0%Z]; [1%Z; 0%Z]; [1%Z; 1%Z]; [0%Z; 0%Z]]]) VNull.

(** Metadata whose copyright author and author link target are empty
    strings. *)
Definition blankAuthorMetadata : MetaData :=
  mkMetaData None None
    (Some (mkPerson None None (Some (mkLink (Some "") (Some "home") None))))
    (Some (mkCopyright (Some "") (Some "2024") None))
    None None None None.

(** ** Vocabulary of the further properties *)

(** The names of the attributes of an element, in order. *)
Definition attributeNames (e : Element) : list string := fst <$> attributes e.

(** The lists of attribute names an element of a given tag may carry. *)
Definition allowedAttributeNames (tag : string) : list (list string) :=
  if String.eqb tag "gpx" then [["version"; "creator"]]
  else if String.eqb tag "wpt" || String.eqb tag "trkpt" then [["lat"; "lon"]]
  else if String.eqb tag "link" then [["href"]]
  else if String.eqb tag "copyright" then [[]; ["author"]]
  else [[]].

(** An attribute of the root of a document. *)
Definition rootAttribute (doc : XMLDocument) (name : string) : option string :=
  documentElement doc ≫= fun root => getAttribute root name.

(** The tags of the elements that hold text. *)
Definition leafTags : list string :=
  ["ele"; "time"; "name"; "desc"; "src"; "type"; "text"; "email"; "year";
   "license"; "keywords"].

(** The forms an element of a converted document can take. *)
Inductive Shape : Element → Prop :=
| Shape_leaf tag text :
    tag ∈ leafTags → Shape (leaf tag text)
| Shape_container tag (l : list Element) :
    tag ∈ ["metadata"; "author"; "trk"; "trkseg"] →
    Shape (mkElement GPX_NS tag [] (ElementNode <$> l))
| Shape_pt tag lat lon (l : list Element) :
    tag ∈ ["wpt"; "trkpt"] →
    Shape (mkElement GPX_NS tag [("lat", lat); ("lon", lon)] (ElementNode <$> l))
| Shape_link href (l : list Element) :
    href ≠ "" →
    Shape (mkElement GPX_NS "link" [("href", href)] (ElementNode <$> l))
| Shape_copyright (l : list Element) :
    Shape (mkElement GPX_NS "copyright" [] (ElementNode <$> l))
| Shape_copyright_author author (l : list Element) :
    author ≠ "" →
    Shape (mkElement GPX_NS "copyright" [("author", author)] (ElementNode <$> l))
| Shape_gpx creator (l : list Element) :
    creator ≠ "" →
    Shape (mkElement GPX_NS "gpx" [("version", "1.1"); ("creator", creator)]
                     (ElementNode <$> l)).

(** Every element of the tree of [e] has one of these forms. *)
Definition shapedBelow (e : Element) : Prop := Forall Shape (elementsOf e).

Section FurtherVocabulary.
Context `{JsNumber number}.

(** The [trkpt] elements of one feature: one per position of a line, the
    lines of a [MultiLineString] one after the other. *)
Definition featureTrkpts (feature : @Feature number) : list Element :=
  let trkpt := fun point => createPt "trkpt" point VUndefined in
  match geometry feature with
  | LineString coordinates => trkpt <$> coordinates
  | MultiLineString coordinates => trkpt <$> concat coordinates
  | _ => []
  end.

(** How many [wpt] a feature stands for, and whether it is a line. *)
Definition wptCount (feature : @Feature number) : nat :=
  match geometry feature with
  | Point _ => 1
  | MultiPoint coordinates => length coordinates
  | _ => 0
  end.

Definition isLine (feature : @Feature number) : bool :=
  match geometry feature with
  | LineString _ | MultiLineString _ => true
  | _ => false
  end.

End FurtherVocabulary.

(** A string that is none of the listed ones. *)
Ltac not_listed :=
  let Hin := fresh "Hin" in
  intros Hin;
  repeat (apply elem_of_cons in Hin as [Hin|Hin]; [discriminate Hin|]);
  by apply elem_of_nil in Hin.

(** A string that is one of the listed ones, and a list of strings that
    are. *)
Ltac listed := first [ by left | right; listed ].

Ltac all_listed :=
  let k := fresh "k" in
  let Hk := fresh "Hk" in
  intros k Hk;
  repeat (apply elem_of_cons in Hk as [->|Hk]; [listed|]);
  by apply elem_of_nil in Hk.

(** ** Basic facts on the DOM operations *)

Section Properties.
Context `{JsNumber number}.

Implicit Types (el parent : Element) (supports : list string).
Implicit Types (props properties content : @value number).
Implicit Types (position : @Position number) (feature : @Feature number).
Implicit Types (geoJson : @GeoJSON number) (st : Collector).

Lemma appendChild_appendChildren parent (c : Element) :
  appendChild parent (ElementNode c) = appendChildren parent [c].
Proof. reflexivity. Qed.

Lemma appendChildren_nil parent : appendChildren parent [] = parent.
Proof. destruct parent; unfold appendChildren; simpl. by rewrite app_nil_r. Qed.

Lemma appendChildren_app parent (l1 l2 : list Element) :
  appendChildren (appendChildren parent l1) l2 = appendChildren parent (l1 ++ l2).
Proof.
  unfold appendChildren; simpl. by rewrite fmap_app, app_assoc.
Qed.

Lemma childNodes_appendChildren parent (l : list Element) :
  childNodes (appendChildren parent l) = childNodes parent ++ (ElementNode <$> l).
Proof. reflexivity. Qed.

Lemma children_fmap (l : list Element) :
  omap asElement (ElementNode <$> l) = l.
Proof. induction l as [|c l IH]; csimpl; [done | by rewrite IH]. Qed.

Lemma children_mkElement ns tag attrs (l : list Element) :
  children (mkElement ns tag attrs (ElementNode <$> l)) = l.
Proof. apply children_fmap. Qed.

Lemma children_appendChildren parent (l : list Element) :
  children (appendChildren parent l) = children parent ++ l.
Proof.
  unfold children. rewrite childNodes_appendChildren, omap_app.
  by rewrite children_fmap.
Qed.

(** A [forEach] that appends one node per item. *)
Lemma forEach_appendChild {A} (f : A → Element) (l : list A) parent :
  fold_left (fun el x => appendChild el (ElementNode (f x))) l parent
  = appendChildren parent (f <$> l).
Proof.
  revert parent. induction l as [|x l IH]; intros parent; simpl.
  - by rewrite appendChildren_nil.
  - rewrite IH, appendChild_appendChildren. apply appendChildren_app.
Qed.

Lemma createTagInParentElement_optLeaf parent tag content :
  createTagInParentElement parent tag content
  = appendChildren parent (optLeaf tag content).
Proof.
  destruct content; simpl; try reflexivity.
  by rewrite appendChildren_nil.
Qed.

(** ** Property copying *)

Lemma existsb_supports key supports :
  key ∈ supports → existsb (String.eqb key) supports = true.
Proof.
  intros Hin. apply existsb_exists. exists key. split.
  - by apply list_elem_of_In.
  - apply String.eqb_refl.
Qed.

Lemma copiedString_not_object props key :
  ToBoolean props && String.eqb (typeof props) "object" = false →
  copiedString props key = None.
Proof. destruct props; simpl; rewrite ?andb_false_r; done. Qed.

(** One turn of the [forEach] over the whitelist. *)
Lemma copy_step supports props key el :
  key ∈ supports →
  ToBoolean props && String.eqb (typeof props) "object" = true →
  (if ToBoolean (Get props key)
      && String.eqb (typeof (Get props key)) "string"
      && existsb (String.eqb key) supports
   then createTagInParentElement el key (Get props key)
   else el)
  = appendChildren el (option_list (leaf key <$> copiedString props key)).
Proof.
  intros Hin Hobj. rewrite (existsb_supports _ _ Hin).
  destruct props as [| |b|n|s|fields]; simpl in Hobj;
    rewrite ?andb_false_r in Hobj; try discriminate.
  simpl. destruct (fields !! key) as [[| |b|n|s|fs]|]; simpl;
    rewrite ?andb_false_r, ?appendChildren_nil; try reflexivity.
  by destruct (String.eqb s ""); simpl; rewrite ?appendChildren_nil.
Qed.

Lemma copy_forEach supports props (keys : list string) el :
  (∀ key, key ∈ keys → key ∈ supports) →
  ToBoolean props && String.eqb (typeof props) "object" = true →
  fold_left
    (fun el key =>
       let value := Get props key in
       if ToBoolean value && String.eqb (typeof value) "string"
          && existsb (String.eqb key) supports
       then createTagInParentElement el key value
       else el)
    keys el
  = appendChildren el (propertyLeaves keys props).
Proof.
  intros Hsub Hobj. revert el Hsub.
  induction keys as [|key keys IH]; intros el Hsub.
  - by rewrite appendChildren_nil.
  - cbn [fold_left]. cbv zeta in *.
    rewrite (copy_step supports props key el); [|apply Hsub; left|done].
    rewrite IH by (intros k Hk; apply Hsub; by right).
    rewrite appendChildren_app. f_equal.
    unfold propertyLeaves. csimpl.
    by destruct (copiedString props key).
Qed.

Lemma addSupportedPropertiesFromObject_leaves el supports props :
  addSupportedPropertiesFromObject el supports props
  = appendChildren el (propertyLeaves supports props).
Proof.
  unfold addSupportedPropertiesFromObject.
  destruct (ToBoolean props && String.eqb (typeof props) "object") eqn:Hobj.
  - by apply copy_forEach.
  - replace (propertyLeaves supports props) with (@nil Element).
    + by rewrite appendChildren_nil.
    + unfold propertyLeaves. induction supports as [|k l IH]; [done|].
      csimpl. by rewrite (copiedString_not_object _ _ Hobj), <- IH.
Qed.

Lemma optLeaf_ofString tag (o : option string) :
  optLeaf tag (ofString o) = stringLeaf tag o.
Proof. by destruct o. Qed.

Lemma optLeaf_ofNumber tag (o : option number) :
  optLeaf tag (ofNumber o) = numberLeaf tag o.
Proof. by destruct o. Qed.

Lemma propertyLeaves_undefined supports :
  propertyLeaves supports (@VUndefined number) = [].
Proof. induction supports as [|k l IH]; [done | exact IH]. Qed.

(** ** The element factories *)

Lemma createPt_eq type position props :
  createPt type position props
  = mkElement GPX_NS type
      [("lat", ToString (ofNumber (position !! 1%nat)));
       ("lon", ToString (ofNumber (position !! 0%nat)))]
      (ElementNode <$> (numberLeaf "ele" (position !! 2%nat)
                        ++ numberLeaf "time" (position !! 3%nat)
                        ++ propertyLeaves pointSupports props)).
Proof.
  unfold createPt. cbv zeta.
  rewrite addSupportedPropertiesFromObject_leaves.
  rewrite !createTagInParentElement_optLeaf, !appendChildren_app.
  by rewrite !optLeaf_ofNumber.
Qed.

Lemma createTrk_eq props :
  createTrk props
  = mkElement GPX_NS "trk" [] (ElementNode <$> propertyLeaves pointSupports props).
Proof.
  unfold createTrk. cbv zeta. by rewrite addSupportedPropertiesFromObject_leaves.
Qed.

Lemma createTrkSeg_eq (coordinates : list (@Position number)) :
  createTrkSeg coordinates
  = mkElement GPX_NS "trkseg" []
      (ElementNode <$> ((fun point => createPt "trkpt" point VUndefined)
                        <$> coordinates)).
Proof. unfold createTrkSeg. cbv zeta. by rewrite forEach_appendChild. Qed.

Lemma copiedString_LinkObject_text (l : Link) :
  copiedString (@LinkObject number l) "text" = nonEmpty (link_text l).
Proof.
  destruct l as [[h|] [t|] [ty|]]; simpl; unfold withField;
    by simplify_map_eq.
Qed.

Lemma copiedString_LinkObject_type (l : Link) :
  copiedString (@LinkObject number l) "type" = nonEmpty (link_type l).
Proof.
  destruct l as [[h|] [t|] [ty|]]; simpl; unfold withField;
    by simplify_map_eq.
Qed.

Lemma propertyLeaves_LinkObject (l : Link) :
  propertyLeaves linkSupports (@LinkObject number l)
  = nonEmptyLeaf "text" (link_text l) ++ nonEmptyLeaf "type" (link_type l).
Proof.
  unfold propertyLeaves, linkSupports, nonEmptyLeaf.
  rewrite <- copiedString_LinkObject_text, <- copiedString_LinkObject_type.
  generalize (copiedString (@LinkObject number l)). intros copied. csimpl.
  by destruct (copied "text"), (copied "type").
Qed.

Lemma createLinkInParentElement_eq parent (l : Link) :
  createLinkInParentElement parent l = appendChildren parent (linkOf (Some l)).
Proof.
  unfold createLinkInParentElement, linkOf. cbv zeta.
  rewrite addSupportedPropertiesFromObject_leaves, propertyLeaves_LinkObject.
  destruct (link_href l) as [h|]; simpl.
  - destruct (String.eqb h ""); simpl; [by rewrite appendChildren_nil | done].
  - by rewrite appendChildren_nil.
Qed.

(** ** The metadata element *)

Lemma createMetadata_eq (meta : MetaData) :
  @createMetadata number _ meta
  = mkElement GPX_NS "metadata" [] (ElementNode <$> metadataChildren meta).
Proof.
  unfold createMetadata, metadataChildren. cbv zeta.
  rewrite !createTagInParentElement_optLeaf, !optLeaf_ofString.
  assert (Hauthor : ∀ parent,
    match meta_author meta with
    | Some a =>
        appendChild parent
          (ElementNode
             match person_link a with
             | Some link =>
                 createLinkInParentElement
                   (createTagInParentElement
                      (createTagInParentElement (createElementWithNS "author")
                         "name" (ofString (person_name a)))
                      "email" (ofString (person_email a)))
                   link
             | None =>
                 createTagInParentElement
                   (createTagInParentElement (createElementWithNS "author")
                      "name" (ofString (person_name a)))
                   "email" (ofString (person_email a))
             end)
    | None => parent
    end = appendChildren parent (authorOf (meta_author meta))).
  { intros parent. destruct (meta_author meta) as [a|]; simpl;
      [|by rewrite appendChildren_nil].
    rewrite appendChild_appendChildren. do 2 f_equal.
    destruct (person_link a) as [l|].
    - rewrite createLinkInParentElement_eq.
      rewrite !createTagInParentElement_optLeaf, !optLeaf_ofString.
      by rewrite !appendChildren_app.
    - rewrite !createTagInParentElement_optLeaf, !optLeaf_ofString.
      rewrite !appendChildren_app. unfold appendChildren; simpl.
      by rewrite app_nil_r. }
  assert (Hcopyright : ∀ parent,
    match meta_copyright meta with
    | Some c =>
        appendChild parent
          (ElementNode
             (createTagInParentElement
                (createTagInParentElement
                   (if ToBoolean (ofString (copyright_author c))
                    then setAttribute (createElementWithNS "copyright") "author"
                           (ToString (ofString (copyright_author c)))
                    else createElementWithNS "copyright")
                   "year" (ofString (copyright_year c)))
                "license" (ofString (copyright_license c))))
    | None => parent
    end = appendChildren parent (copyrightOf (meta_copyright meta))).
  { intros parent. destruct (meta_copyright meta) as [c|]; simpl;
      [|by rewrite appendChildren_nil].
    rewrite appendChild_appendChildren. do 2 f_equal.
    rewrite !createTagInParentElement_optLeaf, !optLeaf_ofString.
    rewrite !appendChildren_app.
    destruct (copyright_author c) as [a|]; simpl; [|done].
    by destruct (String.eqb a ""). }
  assert (Hlink : ∀ parent,
    match meta_link meta with
    | Some link => createLinkInParentElement parent link
    | None => parent
    end = appendChildren parent (linkOf (meta_link meta))).
  { intros parent. destruct (meta_link meta) as [l|].
    - apply createLinkInParentElement_eq.
    - by rewrite appendChildren_nil. }
  rewrite Hlink, Hcopyright, Hauthor. by rewrite !appendChildren_app.
Qed.

(** ** The two arrays *)

Lemma forEach_pushWpt {A} (f : A → Element) (l : list A) st :
  fold_left (fun st x => pushWpt st (f x)) l st
  = mkCollector (wpts st ++ (f <$> l)) (trks st).
Proof.
  revert st. induction l as [|x l IH]; intros [ws ts]; simpl.
  - by rewrite app_nil_r.
  - rewrite IH. simpl. by rewrite <- app_assoc.
Qed.

Lemma featureWpts_Point position props :
  featureWpts (mkFeature (Point position) props) = [createPt "wpt" position props].
Proof. reflexivity. Qed.

Lemma featureWpts_MultiPoint (coordinates : list (@Position number)) props :
  featureWpts (mkFeature (MultiPoint coordinates) props)
  = (fun coord => createPt "wpt" coord props) <$> coordinates.
Proof. unfold featureWpts, interpretFeature; simpl. by rewrite forEach_pushWpt. Qed.

Lemma featureTrks_LineString (coordinates : list (@Position number)) props :
  featureTrks (mkFeature (LineString coordinates) props)
  = [appendChildren (createTrk props) [createTrkSeg coordinates]].
Proof. reflexivity. Qed.

Lemma featureTrks_MultiLineString
    (coordinates : list (list (@Position number))) props :
  featureTrks (mkFeature (MultiLineString coordinates) props)
  = [appendChildren (createTrk props) (createTrkSeg <$> coordinates)].
Proof.
  unfold featureTrks, interpretFeature; simpl.
  by rewrite (forEach_appendChild createTrkSeg).
Qed.

(** A feature only ever appends to the two arrays. *)
Lemma interpretFeature_appends feature st :
  interpretFeature feature st
  = mkCollector (wpts st ++ featureWpts feature) (trks st ++ featureTrks feature).
Proof.
  destruct feature as [g props], st as [ws ts].
  destruct g; unfold featureWpts, featureTrks, interpretFeature; simpl;
    rewrite ?forEach_pushWpt; simpl; by rewrite ?app_nil_r.
Qed.

Lemma forEach_interpretFeature (features : list (@Feature number)) st :
  fold_left (fun st feature => interpretFeature feature st) features st
  = mkCollector (wpts st ++ flat_map featureWpts features)
                (trks st ++ flat_map featureTrks features).
Proof.
  revert st. induction features as [|f fs IH]; intros [ws ts]; simpl.
  - by rewrite !app_nil_r.
  - rewrite IH, interpretFeature_appends. simpl. by rewrite <- !app_assoc.
Qed.

(** The collector after the top-level switch. *)
Lemma collected geoJson :
  match geoJson with
  | IsFeature feature => interpretFeature feature (mkCollector [] [])
  | IsFeatureCollection features =>
      fold_left (fun st feature => interpretFeature feature st) features
                (mkCollector [] [])
  | IsGeometry _ => mkCollector [] []
  end
  = mkCollector (flat_map featureWpts (featuresOf geoJson))
                (flat_map featureTrks (featuresOf geoJson)).
Proof.
  destruct geoJson as [f|fs|g]; simpl.
  - rewrite interpretFeature_appends. simpl. by rewrite !app_nil_r.
  - by rewrite forEach_interpretFeature.
  - done.
Qed.

(** ** The returned document *)

Lemma GeoJsonToGpx_eq geoJson options :
  GeoJsonToGpx geoJson options
  = mkDocument GPX_NS [xmlDeclaration; ElementNode (rootOf geoJson options)].
Proof.
  unfold GeoJsonToGpx. cbv zeta. rewrite collected. simpl wpts. simpl trks.
  rewrite !(forEach_appendChild (fun e => e)), !list_fmap_id.
  unfold documentAppendChild, createDocument; simpl. do 3 f_equal.
  assert (Hcreator :
    (if ToBoolean match options with
                  | Some o => ofString (creator o)
                  | None => @VUndefined number
                  end
     then ToString match options with
                   | Some o => ofString (creator o)
                   | None => @VUndefined number
                   end
     else defaultPackageName) = creatorOf options).
  { destruct options as [[[c|] v m]|]; simpl; try done.
    by destruct (String.eqb c ""). }
  rewrite Hcreator.
  assert (Hmeta : ∀ gpx,
    match options with
    | Some o =>
        match metadata o with
        | Some meta => appendChild gpx (ElementNode (createMetadata meta))
        | None => gpx
        end
    | None => gpx
    end = appendChildren gpx (metadataOf options)).
  { intros gpx. destruct options as [[c v [m|]]|]; simpl;
      by rewrite ?appendChildren_nil. }
  rewrite Hmeta, !appendChildren_app. reflexivity.
Qed.

(** ** Tags of the children *)

Lemma filter_hasTag_all tag (l : list Element) :
  Forall (fun e => tagName e = tag) l → List.filter (hasTag tag) l = l.
Proof.
  induction 1 as [|e l He _ IH]; simpl; [done|].
  unfold hasTag at 1. rewrite He, String.eqb_refl. by rewrite IH.
Qed.

Lemma propertyLeaves_tags supports props :
  Forall (fun e => tagName e ∈ supports) (propertyLeaves supports props).
Proof.
  unfold propertyLeaves.
  generalize (copiedString props). intros copied.
  induction supports as [|k l IH]; csimpl; [constructor|].
  assert (Hl : Forall (fun e => tagName e ∈ k :: l)
                 (omap (fun key => leaf key <$> copied key) l)).
  { eapply Forall_impl; [exact IH|]. intros e He. by right. }
  destruct (copied k); simpl; [constructor; [left|]|]; done.
Qed.

Lemma filter_propertyLeaves tag supports props :
  tag ∉ supports → List.filter (hasTag tag) (propertyLeaves supports props) = [].
Proof.
  intros Hnot. pose proof (propertyLeaves_tags supports props) as Htags.
  induction Htags as [|e l He _ IH]; simpl; [done|].
  unfold hasTag at 1. destruct (String.eqb_spec (tagName e) tag) as [Heq|_].
  - by rewrite Heq in He.
  - exact IH.
Qed.

Lemma tagName_createPt type position props :
  tagName (createPt type position props) = type.
Proof. by rewrite createPt_eq. Qed.

Lemma tagName_createTrkSeg (coordinates : list (@Position number)) :
  tagName (createTrkSeg coordinates) = "trkseg".
Proof. by rewrite createTrkSeg_eq. Qed.

Lemma featureWpts_tags feature :
  Forall (fun e => tagName e = "wpt") (featureWpts feature).
Proof.
  destruct feature as [g props]. destruct g as [c|cs|cs|cs|cs|cs|gs];
    try (by constructor).
  - rewrite featureWpts_Point. constructor; [apply tagName_createPt | constructor].
  - rewrite featureWpts_MultiPoint. apply Forall_fmap, Forall_forall.
    intros c _. apply tagName_createPt.
Qed.

Lemma featureTrks_tags feature :
  Forall (fun e => tagName e = "trk") (featureTrks feature).
Proof.
  destruct feature as [g props]. destruct g as [c|cs|cs|cs|cs|cs|gs];
    try (by constructor).
  - unfold featureTrks, interpretFeature; simpl.
    rewrite forEach_pushWpt. constructor.
  - rewrite featureTrks_LineString. constructor; [|constructor].
    by rewrite createTrk_eq.
  - rewrite featureTrks_MultiLineString. constructor; [|constructor].
    by rewrite createTrk_eq.
Qed.

Lemma collected_wpts_tags (features : list (@Feature number)) :
  Forall (fun e => tagName e = "wpt") (flat_map featureWpts features).
Proof.
  apply Forall_flat_map, Forall_forall. intros f _. apply featureWpts_tags.
Qed.

Lemma collected_trks_tags (features : list (@Feature number)) :
  Forall (fun e => tagName e = "trk") (flat_map featureTrks features).
Proof.
  apply Forall_flat_map, Forall_forall. intros f _. apply featureTrks_tags.
Qed.

Lemma metadataOf_tags options :
  Forall (fun e => tagName e = "metadata") (@metadataOf number _ options).
Proof.
  destruct options as [[c v [m|]]|]; simpl; try constructor; [|constructor].
  by rewrite createMetadata_eq.
Qed.

Lemma documentElement_GeoJsonToGpx geoJson options :
  documentElement (GeoJsonToGpx geoJson options) = Some (rootOf geoJson options).
Proof. by rewrite GeoJsonToGpx_eq. Qed.

Lemma children_rootOf geoJson options :
  children (rootOf geoJson options)
  = metadataOf options
    ++ flat_map featureWpts (featuresOf geoJson)
    ++ flat_map featureTrks (featuresOf geoJson).
Proof. unfold rootOf, children; simpl. apply children_fmap. Qed.

(** ** What the copied leaves are *)

Lemma copiedString_Some props key s :
  copiedString props key = Some s →
  ToBoolean props && String.eqb (typeof props) "object" = true ∧
  Get props key = VString s ∧ s ≠ "".
Proof.
  destruct props as [| |b|n|s'|fields]; try discriminate. simpl.
  destruct (fields !! key) as [[| |b|n|s'|fs]|]; try discriminate. simpl.
  destruct (String.eqb_spec s' "") as [->|Hne]; [discriminate|].
  intros [= <-]. done.
Qed.

Lemma propertyLeaves_origin supports props :
  Forall (fun c => ∃ key s, key ∈ supports ∧ copiedString props key = Some s
                            ∧ c = leaf key s)
         (propertyLeaves supports props).
Proof.
  unfold propertyLeaves.
  induction supports as [|k l IH]; csimpl; [constructor|].
  assert (Hl : Forall (fun c => ∃ key s, key ∈ k :: l
                                 ∧ copiedString props key = Some s ∧ c = leaf key s)
                 (omap (fun key => leaf key <$> copiedString props key) l)).
  { eapply Forall_impl; [exact IH|]. intros e (key & s & Hin & Hc & ->).
    exists key, s. split_and!; [by right|done|done]. }
  destruct (copiedString props k) as [s|] eqn:Hk; simpl; [|done].
  constructor; [|done]. exists k, s. split_and!; [left|done|done].
Qed.

Lemma propertyLeaves_ext supports props props' :
  (∀ key, key ∈ supports → copiedString props key = copiedString props' key) →
  propertyLeaves supports props = propertyLeaves supports props'.
Proof.
  unfold propertyLeaves. induction supports as [|k l IH]; intros Hext; [done|].
  csimpl. rewrite (Hext k) by left.
  rewrite IH by (intros key Hin; apply Hext; by right). done.
Qed.

Lemma children_createTrk props :
  children (createTrk props) = propertyLeaves pointSupports props.
Proof. by rewrite createTrk_eq, children_mkElement. Qed.

Lemma children_createPt type position props :
  children (createPt type position props)
  = numberLeaf "ele" (position !! 2%nat)
    ++ numberLeaf "time" (position !! 3%nat)
    ++ propertyLeaves pointSupports props.
Proof. by rewrite createPt_eq, children_mkElement. Qed.

(** ** The elements of the whole document *)

Lemma elementsOf_mkElement ns tag attrs (l : list Element) :
  elementsOf (mkElement ns tag attrs (ElementNode <$> l))
  = mkElement ns tag attrs (ElementNode <$> l) :: flat_map elementsOf l.
Proof.
  cbn [elementsOf]. f_equal.
  induction l as [|c l IH]; [done|]. csimpl. by rewrite IH.
Qed.

Lemma tagsWithin_mkElement tags ns tag attrs (l : list Element) :
  tag ∈ tags → Forall (tagsWithin tags) l →
  tagsWithin tags (mkElement ns tag attrs (ElementNode <$> l)).
Proof.
  intros Htag Hl. unfold tagsWithin. rewrite elementsOf_mkElement.
  constructor; [exact Htag|]. apply Forall_flat_map. exact Hl.
Qed.

Lemma tagsWithin_leaf tags tag text : tag ∈ tags → tagsWithin tags (leaf tag text).
Proof. intros Htag. by constructor. Qed.

Lemma tagsWithin_stringLeaf tags tag (o : option string) :
  tag ∈ tags → Forall (tagsWithin tags) (stringLeaf tag o).
Proof.
  intros Htag. destruct o; constructor; [by apply tagsWithin_leaf | constructor].
Qed.

Lemma tagsWithin_numberLeaf tags tag (o : option number) :
  tag ∈ tags → Forall (tagsWithin tags) (numberLeaf tag o).
Proof.
  intros Htag. destruct o; constructor; [by apply tagsWithin_leaf | constructor].
Qed.

Lemma tagsWithin_nonEmptyLeaf tags tag (o : option string) :
  tag ∈ tags → Forall (tagsWithin tags) (nonEmptyLeaf tag o).
Proof.
  intros Htag. unfold nonEmptyLeaf.
  destruct (nonEmpty o); constructor; [by apply tagsWithin_leaf | constructor].
Qed.

Lemma tagsWithin_propertyLeaves tags supports props :
  (∀ key, key ∈ supports → key ∈ tags) →
  Forall (tagsWithin tags) (propertyLeaves supports props).
Proof.
  intros Hsub. eapply Forall_impl; [apply propertyLeaves_origin|].
  intros c (key & s & Hin & _ & ->). apply tagsWithin_leaf. by apply Hsub.
Qed.

Lemma tagsWithin_linkOf tags (o : option Link) :
  (∀ key, key ∈ ["link"; "text"; "type"] → key ∈ tags) →
  Forall (tagsWithin tags) (linkOf o).
Proof.
  intros Hsub. unfold linkOf. destruct o as [l|]; [|constructor].
  destruct (nonEmpty (link_href l)) as [href|]; constructor; [|constructor].
  apply tagsWithin_mkElement; [apply Hsub; listed|].
  apply Forall_app. split; apply tagsWithin_nonEmptyLeaf, Hsub; listed.
Qed.

Lemma rooted_createPt type position props :
  rooted type ptInnerTags (createPt type position props).
Proof.
  rewrite createPt_eq. eexists _, _. split; [reflexivity|].
  rewrite !Forall_app. split_and!.
  - apply tagsWithin_numberLeaf. listed.
  - apply tagsWithin_numberLeaf. listed.
  - apply tagsWithin_propertyLeaves. unfold pointSupports, ptInnerTags. all_listed.
Qed.

Lemma tagsWithin_createTrkSeg (coordinates : list (@Position number)) :
  tagsWithin trkInnerTags (createTrkSeg coordinates).
Proof.
  rewrite createTrkSeg_eq. apply tagsWithin_mkElement; [listed|].
  apply Forall_fmap, Forall_forall. intros point _.
  destruct (rooted_createPt "trkpt" point VUndefined) as (attrs & l & Heq & Hl).
  unfold compose. rewrite Heq. apply tagsWithin_mkElement; [listed|].
  eapply Forall_impl; [exact Hl|]. intros c Hc.
  eapply Forall_impl; [exact Hc|]. unfold ptInnerTags. intros x. simpl.
  generalize (tagName x). all_listed.
Qed.

Lemma rooted_trk props (segments : list (list (@Position number))) :
  rooted "trk" trkInnerTags
    (appendChildren (createTrk props) (createTrkSeg <$> segments)).
Proof.
  rewrite createTrk_eq. unfold appendChildren.
  cbn [namespaceURI tagName attributes childNodes]. rewrite <- fmap_app.
  eexists _, _. split; [reflexivity|]. apply Forall_app. split.
  - apply tagsWithin_propertyLeaves. unfold pointSupports. all_listed.
  - apply Forall_fmap, Forall_forall. intros cs _. apply tagsWithin_createTrkSeg.
Qed.

Lemma featureWpts_rooted feature :
  Forall (rooted "wpt" ptInnerTags) (featureWpts feature).
Proof.
  destruct feature as [g props]. destruct g as [c|cs|cs|cs|cs|cs|gs];
    try (by constructor).
  - rewrite featureWpts_Point. constructor; [apply rooted_createPt | constructor].
  - rewrite featureWpts_MultiPoint. apply Forall_fmap, Forall_forall.
    intros c _. apply rooted_createPt.
Qed.

Lemma featureTrks_rooted feature :
  Forall (rooted "trk" trkInnerTags) (featureTrks feature).
Proof.
  destruct feature as [g props]. destruct g as [c|cs|cs|cs|cs|cs|gs];
    try (by constructor).
  - unfold featureTrks, interpretFeature; simpl.
    rewrite forEach_pushWpt. constructor.
  - rewrite featureTrks_LineString. constructor; [|constructor].
    apply (rooted_trk props [cs]).
  - rewrite featureTrks_MultiLineString. constructor; [|constructor].
    apply rooted_trk.
Qed.

Lemma metadataOf_rooted options :
  Forall (rooted "metadata" metadataInnerTags) (@metadataOf number _ options).
Proof.
  destruct options as [[c v [meta|]]|]; simpl; try constructor; [|constructor].
  rewrite createMetadata_eq. eexists _, _. split; [reflexivity|].
  unfold metadataChildren. rewrite !Forall_app. split_and!.
  - apply tagsWithin_stringLeaf. listed.
  - apply tagsWithin_stringLeaf. listed.
  - unfold authorOf. destruct (meta_author meta) as [p|]; constructor; [|constructor].
    apply tagsWithin_mkElement; [listed|]. rewrite !Forall_app. split_and!.
    + apply tagsWithin_stringLeaf. listed.
    + apply tagsWithin_stringLeaf. listed.
    + apply tagsWithin_linkOf. unfold metadataInnerTags. all_listed.
  - unfold copyrightOf.
    destruct (meta_copyright meta) as [cr|]; constructor; [|constructor].
    apply tagsWithin_mkElement; [listed|]. rewrite !Forall_app. split.
    + apply tagsWithin_stringLeaf. listed.
    + apply tagsWithin_stringLeaf. listed.
  - apply tagsWithin_linkOf. unfold metadataInnerTags. all_listed.
  - apply tagsWithin_stringLeaf. listed.
  - apply tagsWithin_stringLeaf. listed.
Qed.

(** Among the trees of elements rooted at [tag], the elements of that tag
    are the roots; those of a tag found nowhere in them are none. *)
Lemma rooted_filter_self tag inner (l : list Element) :
  tag ∉ inner → Forall (rooted tag inner) l →
  List.filter (hasTag tag) (flat_map elementsOf l) = l.
Proof.
  intros Hnot. induction 1 as [|e l (attrs & cs & -> & Hcs) _ IH]; [done|].
  cbn [flat_map]. rewrite List.filter_app, IH, elementsOf_mkElement.
  cbn [List.filter]. unfold hasTag at 1. cbn [tagName].
  rewrite String.eqb_refl. cbn [app]. f_equal.
  replace (List.filter (hasTag tag) (flat_map elementsOf cs)) with (@nil Element);
    [done|].
  symmetry. apply Forall_flat_map in Hcs. revert Hcs.
  generalize (flat_map elementsOf cs). intros xs Hxs.
  induction Hxs as [|x xs Hx _ IHxs]; [done|]. cbn [List.filter].
  unfold hasTag at 1. destruct (String.eqb_spec (tagName x) tag) as [Heq|_].
  - by rewrite Heq in Hx.
  - exact IHxs.
Qed.

Lemma rooted_filter_none tag tag' inner (l : list Element) :
  tag ≠ tag' → tag ∉ inner → Forall (rooted tag' inner) l →
  List.filter (hasTag tag) (flat_map elementsOf l) = [].
Proof.
  intros Hne Hnot Hl.
  assert (Hall : Forall (fun x => tagName x ∈ tag' :: inner) (flat_map elementsOf l)).
  { apply Forall_flat_map. eapply Forall_impl; [exact Hl|].
    intros e (attrs & cs & -> & Hcs). rewrite elementsOf_mkElement.
    constructor; [left|]. apply Forall_flat_map.
    eapply Forall_impl; [exact Hcs|]. intros c Hc.
    eapply Forall_impl; [exact Hc|]. intros x Hx. by right. }
  revert Hall. generalize (flat_map elementsOf l). intros xs Hxs.
  induction Hxs as [|x xs Hx _ IHxs]; [done|]. cbn [List.filter].
  unfold hasTag at 1. destruct (String.eqb_spec (tagName x) tag) as [Heq|_].
  - rewrite Heq in Hx. apply elem_of_cons in Hx as [Hx|Hx]; done.
  - exact IHxs.
Qed.

Lemma allElements_GeoJsonToGpx geoJson options :
  allElements (GeoJsonToGpx geoJson options)
  = rootOf geoJson options
    :: flat_map elementsOf (metadataOf options)
    ++ flat_map elementsOf (flat_map featureWpts (featuresOf geoJson))
    ++ flat_map elementsOf (flat_map featureTrks (featuresOf geoJson)).
Proof.
  rewrite GeoJsonToGpx_eq. unfold allElements, rootOf.
  cbn [documentChildNodes flat_map elementsOfNode xmlDeclaration].
  rewrite elementsOf_mkElement, !flat_map_app. cbn [app].
  by rewrite app_nil_r.
Qed.

Lemma collected_wpts_rooted (features : list (@Feature number)) :
  Forall (rooted "wpt" ptInnerTags) (flat_map featureWpts features).
Proof.
  apply Forall_flat_map, Forall_forall. intros f _. apply featureWpts_rooted.
Qed.

Lemma collected_trks_rooted (features : list (@Feature number)) :
  Forall (rooted "trk" trkInnerTags) (flat_map featureTrks features).
Proof.
  apply Forall_flat_map, Forall_forall. intros f _. apply featureTrks_rooted.
Qed.

Lemma elementsNamed_wpt geoJson options :
  elementsNamed "wpt" (GeoJsonToGpx geoJson options)
  = flat_map featureWpts (featuresOf geoJson).
Proof.
  unfold elementsNamed. rewrite allElements_GeoJsonToGpx.
  cbn [List.filter hasTag tagName rootOf String.eqb Ascii.eqb Bool.eqb].
  rewrite !List.filter_app.
  rewrite (rooted_filter_none "wpt" "metadata" metadataInnerTags (metadataOf options))
    by (done || (unfold metadataInnerTags; not_listed) || apply metadataOf_rooted).
  rewrite (rooted_filter_none "wpt" "trk" trkInnerTags (flat_map featureTrks _))
    by (done || (unfold trkInnerTags; not_listed) || apply collected_trks_rooted).
  rewrite (rooted_filter_self "wpt" ptInnerTags (flat_map featureWpts _))
    by ((unfold ptInnerTags; not_listed) || apply collected_wpts_rooted).
  by rewrite app_nil_r.
Qed.

Lemma elementsNamed_trk geoJson options :
  elementsNamed "trk" (GeoJsonToGpx geoJson options)
  = flat_map featureTrks (featuresOf geoJson).
Proof.
  unfold elementsNamed. rewrite allElements_GeoJsonToGpx.
  cbn [List.filter hasTag tagName rootOf String.eqb Ascii.eqb Bool.eqb].
  rewrite !List.filter_app.
  rewrite (rooted_filter_none "trk" "metadata" metadataInnerTags (metadataOf options))
    by (done || (unfold metadataInnerTags; not_listed) || apply metadataOf_rooted).
  rewrite (rooted_filter_none "trk" "wpt" ptInnerTags (flat_map featureWpts _))
    by (done || (unfold ptInnerTags; not_listed) || apply collected_wpts_rooted).
  by rewrite (rooted_filter_self "trk" trkInnerTags (flat_map featureTrks _))
    by ((unfold trkInnerTags; not_listed) || apply collected_trks_rooted).
Qed.

Lemma elementsNamed_metadata geoJson options :
  elementsNamed "metadata" (GeoJsonToGpx geoJson options) = metadataOf options.
Proof.
  unfold elementsNamed. rewrite allElements_GeoJsonToGpx.
  cbn [List.filter hasTag tagName rootOf String.eqb Ascii.eqb Bool.eqb].
  rewrite !List.filter_app.
  rewrite (rooted_filter_none "metadata" "wpt" ptInnerTags (flat_map featureWpts _))
    by (done || (unfold ptInnerTags; not_listed) || apply collected_wpts_rooted).
  rewrite (rooted_filter_none "metadata" "trk" trkInnerTags (flat_map featureTrks _))
    by (done || (unfold trkInnerTags; not_listed) || apply collected_trks_rooted).
  rewrite (rooted_filter_self "metadata" metadataInnerTags (metadataOf options))
    by ((unfold metadataInnerTags; not_listed) || apply metadataOf_rooted).
  by rewrite app_nil_r.
Qed.

End Properties.

(** * The claims *)

Section Claims.
Context `{JsNumber number}.

Implicit Types (el parent : Element) (supports : list string).
Implicit Types (props properties content : @value number).
Implicit Types (position : @Position number) (feature : @Feature number).
Implicit Types (geoJson : @GeoJSON number) (st : Collector).
Implicit Types (options : option Options).

(** C1.  For every input and every options value the element children of
    the root [gpx] are, in this order: the [metadata] element when one was
    configured (at most one), then every [wpt], then every [trk]; the
    [wpt] elements are those of the first traversed feature, then those of
    the second, and so on, and likewise the [trk] elements, however the
    geometry types are interleaved. *)
Theorem root_children_are_ordered geoJson options :
  ∃ root,
    documentElement (GeoJsonToGpx geoJson options) = Some root ∧
    tagName root = "gpx" ∧
    children root
    = metadataOf options
      ++ flat_map featureWpts (featuresOf geoJson)
      ++ flat_map featureTrks (featuresOf geoJson) ∧
    length (metadataOf options) ≤ 1 ∧
    Forall (fun e => tagName e = "metadata") (metadataOf options) ∧
    Forall (fun e => tagName e = "wpt")
           (flat_map featureWpts (featuresOf geoJson)) ∧
    Forall (fun e => tagName e = "trk")
           (flat_map featureTrks (featuresOf geoJson)).
Proof.
  exists (rootOf geoJson options). split; [apply documentElement_GeoJsonToGpx|].
  split; [reflexivity|]. split; [apply children_rootOf|].
  split; [|split; [apply metadataOf_tags|split]].
  - destruct options as [[c v [m|]]|]; simpl; lia.
  - apply collected_wpts_tags.
  - apply collected_trks_tags.
Qed.

(** C2.  A [Point] feature gives exactly one [wpt] and no [trk], both as a
    feature converted on its own and as what it pushes on the arrays
    inside a collection; the [lat] attribute of that [wpt] is the second
    component of the coordinates and [lon] the first, it has an [ele] leaf
    exactly when the third component is defined and a [time] leaf exactly
    when the fourth is.  A [MultiPoint] feature with N coordinates gives N
    [wpt] elements, one per coordinate in array order, each built from the
    feature's own properties, and no [trk]. *)
Theorem points_become_waypoints position
    (coordinates : list (@Position number)) props options st :
  let wpt := createPt "wpt" position props in
  let wptOf := fun coord => createPt "wpt" coord props in
  elementsNamed "wpt"
    (GeoJsonToGpx (IsFeature (mkFeature (Point position) props)) options)
  = [wpt] ∧
  elementsNamed "trk"
    (GeoJsonToGpx (IsFeature (mkFeature (Point position) props)) options)
  = [] ∧
  interpretFeature (mkFeature (Point position) props) st
  = mkCollector (wpts st ++ [wpt]) (trks st) ∧
  tagName wpt = "wpt" ∧
  attributes wpt
  = [("lat", ToString (ofNumber (position !! 1%nat)));
     ("lon", ToString (ofNumber (position !! 0%nat)))] ∧
  childrenNamed "ele" wpt = numberLeaf "ele" (position !! 2%nat) ∧
  childrenNamed "time" wpt = numberLeaf "time" (position !! 3%nat) ∧
  elementsNamed "wpt"
    (GeoJsonToGpx (IsFeature (mkFeature (MultiPoint coordinates) props)) options)
  = wptOf <$> coordinates ∧
  length
    (elementsNamed "wpt"
       (GeoJsonToGpx (IsFeature (mkFeature (MultiPoint coordinates) props))
                     options))
  = length coordinates ∧
  elementsNamed "trk"
    (GeoJsonToGpx (IsFeature (mkFeature (MultiPoint coordinates) props)) options)
  = [] ∧
  interpretFeature (mkFeature (MultiPoint coordinates) props) st
  = mkCollector (wpts st ++ (wptOf <$> coordinates)) (trks st).
Proof.
  cbv zeta. split_and!.
  - by rewrite elementsNamed_wpt.
  - by rewrite elementsNamed_trk.
  - reflexivity.
  - apply tagName_createPt.
  - by rewrite createPt_eq.
  - rewrite createPt_eq. unfold childrenNamed.
    rewrite children_mkElement, !List.filter_app.
    rewrite filter_propertyLeaves by (unfold pointSupports; not_listed).
    destruct (position !! 2%nat), (position !! 3%nat); reflexivity.
  - rewrite createPt_eq. unfold childrenNamed.
    rewrite children_mkElement, !List.filter_app.
    rewrite filter_propertyLeaves by (unfold pointSupports; not_listed).
    destruct (position !! 2%nat), (position !! 3%nat); reflexivity.
  - rewrite elementsNamed_wpt. cbn [featuresOf flat_map].
    by rewrite app_nil_r, featureWpts_MultiPoint.
  - rewrite elementsNamed_wpt. cbn [featuresOf flat_map].
    by rewrite app_nil_r, featureWpts_MultiPoint, length_fmap.
  - rewrite elementsNamed_trk. cbn [featuresOf flat_map]. rewrite app_nil_r.
    unfold featureTrks, interpretFeature; simpl. by rewrite forEach_pushWpt.
  - unfold interpretFeature; simpl. by rewrite forEach_pushWpt.
Qed.

(** C3.  A [LineString] feature gives exactly one [trk], and no [wpt]; the
    [trk] has exactly one [trkseg] child, whose children are one [trkpt]
    per coordinate, in coordinate order, a [trkpt] having no children but
    its [ele] and [time] leaves (no copied property).  A
    [MultiLineString] feature with M position arrays gives exactly one
    [trk] whose [trkseg] children are the M segments of the arrays, in
    input order, each with as many [trkpt] children as its array has
    positions. *)
Theorem lines_become_tracks (coordinates : list (@Position number))
    (lines : list (list (@Position number))) position props options st :
  let trkpt := fun point => createPt "trkpt" point (@VUndefined number) in
  let lineTrk := appendChild (createTrk props)
                             (ElementNode (createTrkSeg coordinates)) in
  elementsNamed "trk"
    (GeoJsonToGpx (IsFeature (mkFeature (LineString coordinates) props)) options)
  = [lineTrk] ∧
  elementsNamed "wpt"
    (GeoJsonToGpx (IsFeature (mkFeature (LineString coordinates) props)) options)
  = [] ∧
  interpretFeature (mkFeature (LineString coordinates) props) st
  = mkCollector (wpts st) (trks st ++ [lineTrk]) ∧
  tagName lineTrk = "trk" ∧
  childrenNamed "trkseg" lineTrk = [createTrkSeg coordinates] ∧
  tagName (createTrkSeg coordinates) = "trkseg" ∧
  children (createTrkSeg coordinates) = trkpt <$> coordinates ∧
  length (childrenNamed "trkpt" (createTrkSeg coordinates)) = length coordinates ∧
  tagName (trkpt position) = "trkpt" ∧
  children (trkpt position)
  = numberLeaf "ele" (position !! 2%nat) ++ numberLeaf "time" (position !! 3%nat) ∧
  ∃ trk,
    elementsNamed "trk"
      (GeoJsonToGpx (IsFeature (mkFeature (MultiLineString lines) props)) options)
    = [trk] ∧
    elementsNamed "wpt"
      (GeoJsonToGpx (IsFeature (mkFeature (MultiLineString lines) props)) options)
    = [] ∧
    interpretFeature (mkFeature (MultiLineString lines) props) st
    = mkCollector (wpts st) (trks st ++ [trk]) ∧
    tagName trk = "trk" ∧
    childrenNamed "trkseg" trk = createTrkSeg <$> lines ∧
    length (childrenNamed "trkseg" trk) = length lines ∧
    (fun seg => length (childrenNamed "trkpt" seg)) <$> childrenNamed "trkseg" trk
    = length <$> lines.
Proof.
  cbv zeta.
  assert (Hsegs : ∀ (l : list (list (@Position number))),
    List.filter (hasTag "trkseg") (createTrkSeg <$> l) = createTrkSeg <$> l).
  { intros l. apply filter_hasTag_all, Forall_fmap, Forall_forall.
    intros cs _. apply tagName_createTrkSeg. }
  assert (Hnamed : ∀ (l : list (list (@Position number))),
    childrenNamed "trkseg" (appendChildren (createTrk props) (createTrkSeg <$> l))
    = createTrkSeg <$> l).
  { intros l. unfold childrenNamed.
    rewrite children_appendChildren, createTrk_eq, children_mkElement.
    rewrite List.filter_app, Hsegs.
    by rewrite filter_propertyLeaves by (unfold pointSupports; not_listed). }
  assert (Hpts : ∀ (cs : list (@Position number)),
    childrenNamed "trkpt" (createTrkSeg cs)
    = (fun point => createPt "trkpt" point VUndefined) <$> cs).
  { intros cs. unfold childrenNamed.
    rewrite createTrkSeg_eq, children_mkElement.
    apply filter_hasTag_all, Forall_fmap, Forall_forall.
    intros c _. apply tagName_createPt. }
  split_and!.
  - by rewrite elementsNamed_trk.
  - by rewrite elementsNamed_wpt.
  - reflexivity.
  - by rewrite createTrk_eq.
  - rewrite appendChild_appendChildren. apply (Hnamed [coordinates]).
  - by rewrite createTrkSeg_eq.
  - by rewrite createTrkSeg_eq, children_mkElement.
  - by rewrite Hpts, length_fmap.
  - apply tagName_createPt.
  - by rewrite createPt_eq, children_mkElement, propertyLeaves_undefined,
      !app_nil_r.
  - exists (appendChildren (createTrk props) (createTrkSeg <$> lines)).
    split_and!.
    + rewrite elementsNamed_trk. cbn [featuresOf flat_map].
      by rewrite app_nil_r, featureTrks_MultiLineString.
    + by rewrite elementsNamed_wpt.
    + unfold interpretFeature; simpl.
      by rewrite (forEach_appendChild createTrkSeg).
    + by rewrite createTrk_eq.
    + apply Hnamed.
    + by rewrite Hnamed, length_fmap.
    + rewrite Hnamed, <- list_fmap_compose. apply list_fmap_ext.
      intros i cs _. simpl. by rewrite Hpts, length_fmap.
Qed.

(** C4.  The conversion returns a document for every input: it always has
    a [gpx] root.  A feature whose geometry type is none of the four
    supported ones ([Polygon] or a type the switch does not list) leaves
    the two arrays as they are, so the document of a collection is the
    same with or without it, and on its own it gives a root with no [wpt]
    and no [trk]; so does a top-level input that is neither a feature nor
    a collection. *)
Theorem unsupported_input_is_omitted geoJson (g : @Geometry number) feature
    (before after : list (@Feature number)) options st :
  geometryType (geometry feature)
    ∉ ["Point"; "MultiPoint"; "LineString"; "MultiLineString"] →
  (∃ root, documentElement (GeoJsonToGpx geoJson options) = Some root ∧
           tagName root = "gpx") ∧
  interpretFeature feature st = st ∧
  GeoJsonToGpx (IsFeatureCollection (before ++ feature :: after)) options
  = GeoJsonToGpx (IsFeatureCollection (before ++ after)) options ∧
  elementsNamed "wpt" (GeoJsonToGpx (IsFeature feature) options) = [] ∧
  elementsNamed "trk" (GeoJsonToGpx (IsFeature feature) options) = [] ∧
  elementsNamed "wpt" (GeoJsonToGpx (IsGeometry g) options) = [] ∧
  elementsNamed "trk" (GeoJsonToGpx (IsGeometry g) options) = [].
Proof.
  intros Hunsupported.
  assert (Hskip : ∀ st', interpretFeature feature st' = st').
  { intros st'. destruct feature as [[c|cs|cs|cs|cs|cs|gs] props];
      simpl in Hunsupported; try reflexivity;
      exfalso; apply Hunsupported; set_solver. }
  assert (Hw : featureWpts feature = []) by (unfold featureWpts; by rewrite Hskip).
  assert (Ht : featureTrks feature = []) by (unfold featureTrks; by rewrite Hskip).
  split_and!.
  - exists (rootOf geoJson options).
    by rewrite documentElement_GeoJsonToGpx.
  - apply Hskip.
  - rewrite !GeoJsonToGpx_eq. unfold rootOf; simpl.
    rewrite !flat_map_app; simpl. by rewrite Hw, Ht.
  - rewrite elementsNamed_wpt. cbn [featuresOf flat_map]. by rewrite Hw.
  - rewrite elementsNamed_trk. cbn [featuresOf flat_map]. by rewrite Ht.
  - by rewrite elementsNamed_wpt.
  - by rewrite elementsNamed_trk.
Qed.

(** C5.  Copying from a property bag appends leaves to the element and
    changes nothing else of it.  Every leaf appended comes from a key of
    the whitelist under which the bag, an object, holds a non-empty string,
    and is the leaf of that key and string; a key whose value is not a
    string gives no leaf; two bags that agree on the keys of the whitelist
    give the same result, whatever else they hold; a bag that is absent or
    not an object leaves the element as it is.  The whitelist is [name],
    [desc], [src], [type] for a [trk] and for a [wpt] or [trkpt], and
    [text], [type] for a [link]. *)
Theorem only_whitelisted_strings_are_copied el supports props
    (fields fields' : gmap string (@value number))
    type position parent (link : Link) :
  let copy := addSupportedPropertiesFromObject el supports in
  let isObject := ToBoolean props && String.eqb (typeof props) "object" in
  copy props = appendChildren el (propertyLeaves supports props) ∧
  Forall (fun c => ∃ key s, key ∈ supports ∧ isObject = true
                            ∧ Get props key = VString s ∧ s ≠ ""
                            ∧ c = leaf key s)
         (propertyLeaves supports props) ∧
  (∀ key, typeof (Get props key) ≠ "string" →
          Forall (fun c => tagName c ≠ key) (propertyLeaves supports props)) ∧
  ((∀ key, key ∈ supports → fields !! key = fields' !! key) →
   copy (VObject fields) = copy (VObject fields')) ∧
  (isObject = false → copy props = el) ∧
  children (createTrk props)
  = propertyLeaves ["name"; "desc"; "src"; "type"] props ∧
  children (createPt type position props)
  = numberLeaf "ele" (position !! 2%nat)
    ++ numberLeaf "time" (position !! 3%nat)
    ++ propertyLeaves ["name"; "desc"; "src"; "type"] props ∧
  (createLinkInParentElement parent link = parent ∨
   ∃ l, createLinkInParentElement parent link
        = appendChild parent (ElementNode l) ∧
        tagName l = "link" ∧
        children l = propertyLeaves ["text"; "type"] (@LinkObject number link)).
Proof.
  cbv zeta. split_and!.
  - apply addSupportedPropertiesFromObject_leaves.
  - eapply Forall_impl; [apply propertyLeaves_origin|].
    intros c (key & s & Hin & Hcopied & ->).
    apply copiedString_Some in Hcopied as (Hobj & Hget & Hne).
    by exists key, s.
  - intros key Hnot.
    eapply Forall_impl; [apply propertyLeaves_origin|].
    intros c (key' & s & Hin & Hcopied & ->) Heq. simpl in Heq. subst key'.
    apply copiedString_Some in Hcopied as (_ & Hget & _).
    apply Hnot. by rewrite Hget.
  - intros Hagree. rewrite !addSupportedPropertiesFromObject_leaves.
    f_equal. apply propertyLeaves_ext. intros key Hin. simpl.
    by rewrite (Hagree key Hin).
  - intros Hobj. unfold addSupportedPropertiesFromObject. by rewrite Hobj.
  - apply children_createTrk.
  - apply children_createPt.
  - rewrite createLinkInParentElement_eq. unfold linkOf.
    destruct (nonEmpty (link_href link)) as [href|].
    + right. eexists. split; [reflexivity|]. split; [reflexivity|].
      unfold linkElement. by rewrite children_mkElement, propertyLeaves_LinkObject.
    + left. apply appendChildren_nil.
Qed.

(** C6, as amended.  The [metadata] element has no attribute and its
    children are, in this order: a [name] leaf and a [desc] leaf, each
    when the field is defined; an [author] element when [meta.author] is
    an object, holding a [name] leaf and an [email] leaf, each when
    defined, and a [link] element when [meta.author.link] is an object
    with a non-empty [href]; a [copyright] element when [meta.copyright]
    is an object, with an [author] attribute when that field is defined
    and not empty, and a [year] and a [license] leaf, each when defined; a
    [link] element when [meta.link] is an object with a non-empty [href];
    a [time] leaf and a [keywords] leaf, each when defined.  The [bounds]
    field changes nothing.  When [options.metadata] is an object the
    element is the first child of the root and the only [metadata] child;
    when it is absent, or [options] is, the root has no [metadata]
    child. *)
Theorem metadata_element_structure (meta : MetaData) (bounds : option Bounds)
    geoJson (c v : option string) :
  @createMetadata number _ meta
  = mkElement GPX_NS "metadata" [] (ElementNode <$> metadataChildren meta) ∧
  @createMetadata number _
    (mkMetaData (meta_name meta) (meta_desc meta) (meta_author meta)
                (meta_copyright meta) (meta_link meta) (meta_time meta)
                (meta_keywords meta) bounds)
  = @createMetadata number _ meta ∧
  (∃ root,
     documentElement (GeoJsonToGpx geoJson (Some (mkOptions c v (Some meta))))
     = Some root ∧
     head (children root) = Some (createMetadata meta)) ∧
  elementsNamed "metadata"
    (GeoJsonToGpx geoJson (Some (mkOptions c v (Some meta))))
  = [createMetadata meta] ∧
  elementsNamed "metadata" (GeoJsonToGpx geoJson (Some (mkOptions c v None)))
  = [] ∧
  elementsNamed "metadata" (GeoJsonToGpx geoJson None) = [].
Proof.
  split_and!.
  - apply createMetadata_eq.
  - by rewrite !createMetadata_eq.
  - exists (rootOf geoJson (Some (mkOptions c v (Some meta)))).
    by rewrite documentElement_GeoJsonToGpx, children_rootOf.
  - by rewrite elementsNamed_metadata.
  - by rewrite elementsNamed_metadata.
  - by rewrite elementsNamed_metadata.
Qed.

(** C7.  The link factory leaves the parent as it is when [href] is
    undefined or empty, whatever [text] and [type] are; otherwise it
    appends one [link] element whose only attribute is [href] and whose
    children are a [text] leaf when [text] is a non-empty string, then a
    [type] leaf when [type] is a non-empty string. *)
Theorem link_requires_href parent (link : Link) :
  createLinkInParentElement parent link
  = match link_href link with
    | Some href =>
        if String.eqb href "" then parent
        else
          appendChild parent
            (ElementNode
               (mkElement GPX_NS "link" [("href", href)]
                  (ElementNode <$> (nonEmptyLeaf "text" (link_text link)
                                    ++ nonEmptyLeaf "type" (link_type link)))))
    | None => parent
    end.
Proof.
  rewrite createLinkInParentElement_eq. unfold linkOf, nonEmpty at 1.
  destruct (link_href link) as [href|]; [|apply appendChildren_nil].
  destruct (String.eqb href ""); [apply appendChildren_nil | reflexivity].
Qed.

(** C8.  The root of the returned document is a [gpx] element with exactly
    two attributes, [version] of value 1.1 and [creator]; without options
    the creator is the default package name and the root has no
    [metadata] child. *)
Theorem root_attributes geoJson options :
  (∃ root,
     documentElement (GeoJsonToGpx geoJson options) = Some root ∧
     tagName root = "gpx" ∧
     attributes root = [("version", "1.1"); ("creator", creatorOf options)] ∧
     getAttribute root "version" = Some "1.1" ∧
     getAttribute root "creator" = Some (creatorOf options)) ∧
  (∃ root,
     documentElement (GeoJsonToGpx geoJson None) = Some root ∧
     attributes root
     = [("version", "1.1"); ("creator", "@dwayneparton/geojson-to-gpx")]) ∧
  elementsNamed "metadata" (GeoJsonToGpx geoJson None) = [].
Proof.
  split_and!.
  - exists (rootOf geoJson options).
    rewrite documentElement_GeoJsonToGpx. by split_and!.
  - exists (rootOf geoJson None). by rewrite documentElement_GeoJsonToGpx.
  - by rewrite elementsNamed_metadata.
Qed.

(** C9.  Two options values that differ only in their [version] field
    give the same document, and the [version] attribute of the root is
    1.1 whatever that field holds. *)
Theorem version_option_is_ignored geoJson (c v v' : option string)
    (m : option MetaData) :
  GeoJsonToGpx geoJson (Some (mkOptions c v m))
  = GeoJsonToGpx geoJson (Some (mkOptions c v' m)) ∧
  ∃ root,
    documentElement (GeoJsonToGpx geoJson (Some (mkOptions c v m))) = Some root ∧
    getAttribute root "version" = Some "1.1".
Proof.
  split.
  - by rewrite !GeoJsonToGpx_eq.
  - exists (rootOf geoJson (Some (mkOptions c v m))).
    by rewrite documentElement_GeoJsonToGpx.
Qed.

(** C10.  When a bag holds the empty string under a key, copying appends
    no leaf of that key, and the result is the same as without the key and
    the same as with a non-string value under it.  So a [Link] whose
    [text] or [type] is the empty string gives the [link] element of one
    that has no such field. *)
Theorem empty_string_is_not_copied el supports
    (fields : gmap string (@value number)) key (other : @value number)
    parent (href text type : option string) :
  fields !! key = Some (VString "") →
  typeof other ≠ "string" →
  (∃ added,
     childNodes (addSupportedPropertiesFromObject el supports (VObject fields))
     = childNodes el ++ (ElementNode <$> added) ∧
     Forall (fun c => tagName c ≠ key) added) ∧
  addSupportedPropertiesFromObject el supports (VObject fields)
  = addSupportedPropertiesFromObject el supports (VObject (delete key fields)) ∧
  addSupportedPropertiesFromObject el supports (VObject fields)
  = addSupportedPropertiesFromObject el supports
      (VObject (<[key := other]> fields)) ∧
  createLinkInParentElement parent (mkLink href (Some "") type)
  = createLinkInParentElement parent (mkLink href None type) ∧
  createLinkInParentElement parent (mkLink href text (Some ""))
  = createLinkInParentElement parent (mkLink href text None).
Proof.
  intros Hempty Hother.
  assert (Hnone : copiedString (VObject fields) key = None)
    by (simpl; by rewrite Hempty).
  split_and!.
  - exists (propertyLeaves supports (VObject fields)). split.
    + by rewrite addSupportedPropertiesFromObject_leaves.
    + eapply Forall_impl; [apply propertyLeaves_origin|].
      intros c (key' & s & Hin & Hcopied & ->) Heq. simpl in Heq. subst key'.
      by rewrite Hnone in Hcopied.
  - rewrite !addSupportedPropertiesFromObject_leaves. f_equal.
    apply propertyLeaves_ext. intros k _. simpl.
    destruct (decide (k = key)) as [->|Hne].
    + by rewrite Hempty, lookup_delete_eq.
    + by rewrite lookup_delete_ne.
  - rewrite !addSupportedPropertiesFromObject_leaves. f_equal.
    apply propertyLeaves_ext. intros k _. simpl.
    destruct (decide (k = key)) as [->|Hne].
    + rewrite Hempty, lookup_insert_eq. simpl. by destruct other.
    + by rewrite lookup_insert_ne.
  - by rewrite !createLinkInParentElement_eq.
  - by rewrite !createLinkInParentElement_eq.
Qed.

End Claims.

(** * Further properties of the conversion *)

Section Further.
Context `{JsNumber number}.

Implicit Types (el parent : Element) (supports : list string).
Implicit Types (props properties content : @value number).
Implicit Types (position : @Position number) (feature : @Feature number).
Implicit Types (geoJson : @GeoJSON number) (st : Collector).
Implicit Types (options : option Options).

(** ** The forms of the elements *)

Lemma shapedBelow_mkElement ns tag attrs (l : list Element) :
  Shape (mkElement ns tag attrs (ElementNode <$> l)) →
  Forall shapedBelow l →
  shapedBelow (mkElement ns tag attrs (ElementNode <$> l)).
Proof.
  intros Hself Hl. unfold shapedBelow. rewrite elementsOf_mkElement.
  constructor; [exact Hself|]. apply Forall_flat_map. exact Hl.
Qed.

Lemma shapedBelow_leaf tag text : tag ∈ leafTags → shapedBelow (leaf tag text).
Proof. intros Htag. constructor; [by apply Shape_leaf | constructor]. Qed.

Lemma shapedBelow_stringLeaf tag (o : option string) :
  tag ∈ leafTags → Forall shapedBelow (stringLeaf tag o).
Proof.
  intros Htag. destruct o; constructor; [by apply shapedBelow_leaf | constructor].
Qed.

Lemma shapedBelow_numberLeaf tag (o : option number) :
  tag ∈ leafTags → Forall shapedBelow (numberLeaf tag o).
Proof.
  intros Htag. destruct o; constructor; [by apply shapedBelow_leaf | constructor].
Qed.

Lemma shapedBelow_nonEmptyLeaf tag (o : option string) :
  tag ∈ leafTags → Forall shapedBelow (nonEmptyLeaf tag o).
Proof.
  intros Htag. unfold nonEmptyLeaf.
  destruct (nonEmpty o); constructor; [by apply shapedBelow_leaf | constructor].
Qed.

Lemma shapedBelow_propertyLeaves supports props :
  (∀ key, key ∈ supports → key ∈ leafTags) →
  Forall shapedBelow (propertyLeaves supports props).
Proof.
  intros Hsub. eapply Forall_impl; [apply propertyLeaves_origin|].
  intros c (key & s & Hin & _ & ->). apply shapedBelow_leaf. by apply Hsub.
Qed.

Lemma nonEmpty_Some (o : option string) s :
  nonEmpty o = Some s → o = Some s ∧ s ≠ "".
Proof.
  destruct o as [s'|]; simpl; [|discriminate].
  destruct (String.eqb_spec s' "") as [->|Hne]; [discriminate|].
  by intros [= <-].
Qed.

Lemma shapedBelow_linkOf (o : option Link) : Forall shapedBelow (linkOf o).
Proof.
  unfold linkOf. destruct o as [l|]; [|constructor].
  destruct (nonEmpty (link_href l)) as [href|] eqn:Hhref; [|constructor].
  apply nonEmpty_Some in Hhref as [_ Hne].
  constructor; [|constructor]. apply shapedBelow_mkElement.
  - by apply Shape_link.
  - apply Forall_app. split; apply shapedBelow_nonEmptyLeaf; listed.
Qed.

Lemma shapedBelow_createPt type position props :
  type ∈ ["wpt"; "trkpt"] → shapedBelow (createPt type position props).
Proof.
  intros Htype. rewrite createPt_eq. apply shapedBelow_mkElement.
  - by apply Shape_pt.
  - rewrite !Forall_app. split_and!.
    + apply shapedBelow_numberLeaf. listed.
    + apply shapedBelow_numberLeaf. listed.
    + apply shapedBelow_propertyLeaves. unfold pointSupports, leafTags.
      all_listed.
Qed.

Lemma shapedBelow_createTrkSeg (coordinates : list (@Position number)) :
  shapedBelow (createTrkSeg coordinates).
Proof.
  rewrite createTrkSeg_eq. apply shapedBelow_mkElement.
  - apply Shape_container. listed.
  - apply Forall_fmap, Forall_forall. intros point _.
    apply shapedBelow_createPt. listed.
Qed.

Lemma shapedBelow_trk props (segments : list (list (@Position number))) :
  shapedBelow (appendChildren (createTrk props) (createTrkSeg <$> segments)).
Proof.
  rewrite createTrk_eq. unfold appendChildren.
  cbn [namespaceURI tagName attributes childNodes]. rewrite <- fmap_app.
  apply shapedBelow_mkElement.
  - apply Shape_container. listed.
  - apply Forall_app. split.
    + apply shapedBelow_propertyLeaves. unfold pointSupports, leafTags.
      all_listed.
    + apply Forall_fmap, Forall_forall. intros cs _.
      apply shapedBelow_createTrkSeg.
Qed.

Lemma shapedBelow_featureWpts feature : Forall shapedBelow (featureWpts feature).
Proof.
  destruct feature as [g props]. destruct g as [c|cs|cs|cs|cs|cs|gs];
    try (by constructor).
  - rewrite featureWpts_Point.
    constructor; [apply shapedBelow_createPt; listed | constructor].
  - rewrite featureWpts_MultiPoint. apply Forall_fmap, Forall_forall.
    intros c _. apply shapedBelow_createPt. listed.
Qed.

Lemma shapedBelow_featureTrks feature : Forall shapedBelow (featureTrks feature).
Proof.
  destruct feature as [g props]. destruct g as [c|cs|cs|cs|cs|cs|gs];
    try (by constructor).
  - unfold featureTrks, interpretFeature; simpl.
    rewrite forEach_pushWpt. constructor.
  - rewrite featureTrks_LineString. constructor; [|constructor].
    apply (shapedBelow_trk props [cs]).
  - rewrite featureTrks_MultiLineString. constructor; [|constructor].
    apply shapedBelow_trk.
Qed.

Lemma shapedBelow_metadataOf options :
  Forall shapedBelow (@metadataOf number _ options).
Proof.
  destruct options as [[c v [meta|]]|]; simpl; try constructor; [|constructor].
  rewrite createMetadata_eq. apply shapedBelow_mkElement.
  { apply Shape_container. listed. }
  unfold metadataChildren. rewrite !Forall_app. split_and!.
  - apply shapedBelow_stringLeaf. listed.
  - apply shapedBelow_stringLeaf. listed.
  - unfold authorOf.
    destruct (meta_author meta) as [p|]; constructor; [|constructor].
    apply shapedBelow_mkElement; [apply Shape_container; listed|].
    rewrite !Forall_app. split_and!.
    + apply shapedBelow_stringLeaf. listed.
    + apply shapedBelow_stringLeaf. listed.
    + apply shapedBelow_linkOf.
  - unfold copyrightOf.
    destruct (meta_copyright meta) as [cr|]; constructor; [|constructor].
    apply shapedBelow_mkElement.
    + destruct (nonEmpty (copyright_author cr)) as [a|] eqn:Ha.
      * apply nonEmpty_Some in Ha as [_ Hne]. by apply Shape_copyright_author.
      * apply Shape_copyright.
    + rewrite !Forall_app. split; apply shapedBelow_stringLeaf; listed.
  - apply shapedBelow_linkOf.
  - apply shapedBelow_stringLeaf. listed.
  - apply shapedBelow_stringLeaf. listed.
Qed.

Lemma creatorOf_not_empty options : creatorOf options ≠ "".
Proof.
  destruct options as [[[c|] v m]|]; simpl; try discriminate.
  destruct (String.eqb_spec c "") as [->|Hne]; [discriminate | exact Hne].
Qed.

(** Every element of a converted document has one of the forms. *)
Lemma shaped_document geoJson options :
  Forall Shape (allElements (GeoJsonToGpx geoJson options)).
Proof.
  rewrite allElements_GeoJsonToGpx. constructor.
  - unfold rootOf. apply Shape_gpx, creatorOf_not_empty.
  - rewrite !Forall_app. split_and!; apply Forall_flat_map.
    + apply shapedBelow_metadataOf.
    + apply Forall_flat_map, Forall_forall. intros f _.
      apply shapedBelow_featureWpts.
    + apply Forall_flat_map, Forall_forall. intros f _.
      apply shapedBelow_featureTrks.
Qed.

(** ** The document as a whole *)


(** X2.  Every element of the returned document, at any depth, is in the
    GPX namespace. *)
Theorem every_element_is_in_the_gpx_namespace geoJson options :
  Forall (fun e => namespaceURI e = GPX_NS)
         (allElements (GeoJsonToGpx geoJson options)).
Proof.
  eapply Forall_impl; [apply shaped_document|].
  intros e He. by destruct He.
Qed.

(** X3.  In the returned document the attributes of an element follow
    from its tag: [gpx] has [version] and [creator], a [wpt] or [trkpt]
    has [lat] and [lon], a [link] has [href], a [copyright] has nothing
    or [author], and every other element has no attribute. *)
Theorem attributes_follow_the_tag geoJson options :
  Forall (fun e => attributeNames e ∈ allowedAttributeNames (tagName e))
         (allElements (GeoJsonToGpx geoJson options)).
Proof.
  eapply Forall_impl; [apply shaped_document|].
  intros e He. destruct He as [tag text Htag|tag l Htag|tag lat lon l Htag
                               |href l _|l|author l _|creator l _];
    try (cbv; listed).
  - unfold leafTags in Htag.
    repeat (apply elem_of_cons in Htag as [->|Htag]; [cbv; listed|]).
    by apply elem_of_nil in Htag.
  - repeat (apply elem_of_cons in Htag as [->|Htag]; [cbv; listed|]).
    by apply elem_of_nil in Htag.
  - repeat (apply elem_of_cons in Htag as [->|Htag]; [cbv; listed|]).
    by apply elem_of_nil in Htag.
Qed.

(** X4.  In the returned document an element never mixes text and
    elements: an element whose tag is one of the leaf tags holds exactly
    one text node, and any other element holds elements only. *)
Theorem elements_hold_text_or_elements geoJson options :
  Forall (fun e =>
            (tagName e ∈ leafTags ∧ ∃ text, childNodes e = [TextNode text])
            ∨ ((tagName e ∉ leafTags)
               ∧ ∃ l : list Element, childNodes e = ElementNode <$> l))
         (allElements (GeoJsonToGpx geoJson options)).
Proof.
  eapply Forall_impl; [apply shaped_document|].
  intros e He. destruct He as [tag text Htag|tag l Htag|tag lat lon l Htag
                               |href l _|l|author l _|creator l _].
  - left. split; [exact Htag | by exists text].
  - right. split; [|by exists l]. cbn [tagName].
    repeat (apply elem_of_cons in Htag as [->|Htag];
            [unfold leafTags; not_listed|]).
    by apply elem_of_nil in Htag.
  - right. split; [|by exists l]. cbn [tagName].
    repeat (apply elem_of_cons in Htag as [->|Htag];
            [unfold leafTags; not_listed|]).
    by apply elem_of_nil in Htag.
  - right. split; [unfold leafTags; cbn [tagName]; not_listed | by exists l].
  - right. split; [unfold leafTags; cbn [tagName]; not_listed | by exists l].
  - right. split; [unfold leafTags; cbn [tagName]; not_listed | by exists l].
  - right. split; [unfold leafTags; cbn [tagName]; not_listed | by exists l].
Qed.

(** X5.  The [creator] attribute of the root is never empty: it is the
    creator of the options when that is a non-empty string, and the
    default package name when the options, or their creator, are missing
    or the creator is the empty string. *)
Theorem creator_falls_back_to_the_default geoJson options
    (v : option string) (c : string) (m : option MetaData) :
  (∃ given,
     rootAttribute (GeoJsonToGpx geoJson options) "creator" = Some given
     ∧ given ≠ "") ∧
  rootAttribute (GeoJsonToGpx geoJson (Some (mkOptions (Some c) v m))) "creator"
  = Some (if String.eqb c "" then "@dwayneparton/geojson-to-gpx" else c) ∧
  rootAttribute (GeoJsonToGpx geoJson (Some (mkOptions None v m))) "creator"
  = Some "@dwayneparton/geojson-to-gpx" ∧
  rootAttribute (GeoJsonToGpx geoJson None) "creator"
  = Some "@dwayneparton/geojson-to-gpx".
Proof.
  unfold rootAttribute. rewrite !documentElement_GeoJsonToGpx. split_and!.
  - exists (creatorOf options). split; [reflexivity | apply creatorOf_not_empty].
  - reflexivity.
  - reflexivity.
  - reflexivity.
Qed.

(** ** How inputs compose *)

Lemma flat_map_featureWpts_points (coordinates : list (@Position number)) props :
  flat_map featureWpts ((fun c => mkFeature (Point c) props) <$> coordinates)
  = (fun c => createPt "wpt" c props) <$> coordinates.
Proof.
  induction coordinates as [|c cs IH]; [done|].
  cbn [fmap list_fmap flat_map]. by rewrite IH, featureWpts_Point.
Qed.

Lemma flat_map_featureTrks_points (coordinates : list (@Position number)) props :
  flat_map featureTrks ((fun c => mkFeature (Point c) props) <$> coordinates)
  = [].
Proof.
  induction coordinates as [|c cs IH]; [done|].
  cbn [fmap list_fmap flat_map]. by rewrite IH.
Qed.

Lemma flat_map_featureTrks_lines (lines : list (list (@Position number))) props :
  length (flat_map featureTrks
            ((fun cs => mkFeature (LineString cs) props) <$> lines))
  = length lines.
Proof.
  induction lines as [|cs l IH]; [done|].
  cbn [fmap list_fmap flat_map].
  by rewrite length_app, IH, featureTrks_LineString.
Qed.

(** X6.  The [wpt] elements of a collection made of two parts are those
    of the first part followed by those of the second, and so are the
    [trk] elements; an empty collection has none; and a feature on its own
    is converted exactly as the collection that holds it alone. *)
Theorem collections_concatenate (front back : list (@Feature number))
    feature options :
  elementsNamed "wpt" (GeoJsonToGpx (IsFeatureCollection (front ++ back)) options)
  = elementsNamed "wpt" (GeoJsonToGpx (IsFeatureCollection front) options)
    ++ elementsNamed "wpt" (GeoJsonToGpx (IsFeatureCollection back) options) ∧
  elementsNamed "trk" (GeoJsonToGpx (IsFeatureCollection (front ++ back)) options)
  = elementsNamed "trk" (GeoJsonToGpx (IsFeatureCollection front) options)
    ++ elementsNamed "trk" (GeoJsonToGpx (IsFeatureCollection back) options) ∧
  elementsNamed "wpt" (GeoJsonToGpx (IsFeatureCollection []) options) = [] ∧
  elementsNamed "trk" (GeoJsonToGpx (IsFeatureCollection []) options) = [] ∧
  GeoJsonToGpx (IsFeature feature) options
  = GeoJsonToGpx (IsFeatureCollection [feature]) options.
Proof.
  rewrite !elementsNamed_wpt, !elementsNamed_trk. cbn [featuresOf].
  split_and!; try reflexivity; apply flat_map_app.
Qed.

(** X7.  A [MultiPoint] feature is converted exactly as the collection of
    [Point] features, one per coordinate in order, that carry its
    properties. *)
Theorem multipoint_is_a_collection_of_points
    (coordinates : list (@Position number)) props options :
  GeoJsonToGpx (IsFeature (mkFeature (MultiPoint coordinates) props)) options
  = GeoJsonToGpx
      (IsFeatureCollection
         ((fun c => mkFeature (Point c) props) <$> coordinates))
      options.
Proof.
  rewrite !GeoJsonToGpx_eq. unfold rootOf. cbn [featuresOf flat_map].
  rewrite flat_map_featureWpts_points, flat_map_featureTrks_points.
  rewrite !app_nil_r, featureWpts_MultiPoint.
  replace (featureTrks (mkFeature (MultiPoint coordinates) props))
    with (@nil Element); [by rewrite app_nil_r|].
  unfold featureTrks, interpretFeature; simpl. by rewrite forEach_pushWpt.
Qed.

(** X8.  A [LineString] feature is converted exactly as the
    [MultiLineString] feature whose only line it is.  A [MultiLineString]
    always gives one [trk], however many lines it has, whereas the
    collection of its lines as [LineString] features gives one [trk] per
    line. *)
Theorem linestring_is_a_single_line_multilinestring
    (coordinates : list (@Position number))
    (lines : list (list (@Position number))) props options :
  GeoJsonToGpx (IsFeature (mkFeature (LineString coordinates) props)) options
  = GeoJsonToGpx (IsFeature (mkFeature (MultiLineString [coordinates]) props))
                 options ∧
  length (elementsNamed "trk"
            (GeoJsonToGpx (IsFeature (mkFeature (MultiLineString lines) props))
                          options))
  = 1 ∧
  length (elementsNamed "trk"
            (GeoJsonToGpx
               (IsFeatureCollection
                  ((fun cs => mkFeature (LineString cs) props) <$> lines))
               options))
  = length lines.
Proof.
  split_and!.
  - reflexivity.
  - rewrite elementsNamed_trk. cbn [featuresOf flat_map].
    by rewrite app_nil_r, featureTrks_MultiLineString.
  - rewrite elementsNamed_trk. cbn [featuresOf].
    apply flat_map_featureTrks_lines.
Qed.

(** X9.  A feature only appends to the two arrays, never removing or
    reordering what they hold, and it appends to at most one of them: no
    feature gives both a [wpt] and a [trk]. *)
Theorem feature_fills_one_array feature st :
  wpts st `prefix_of` wpts (interpretFeature feature st) ∧
  trks st `prefix_of` trks (interpretFeature feature st) ∧
  (wpts (interpretFeature feature st) = wpts st
   ∨ trks (interpretFeature feature st) = trks st).
Proof.
  rewrite interpretFeature_appends. cbn [wpts trks]. split_and!.
  - by eexists.
  - by eexists.
  - destruct feature as [g props].
    destruct g as [c|cs|cs|cs|cs|cs|gs];
      unfold featureWpts, featureTrks, interpretFeature; simpl;
      rewrite ?forEach_pushWpt; simpl;
      first [ left; apply app_nil_r | right; apply app_nil_r ].
Qed.

(** ** Order and completeness of the copied leaves *)

Lemma propertyLeaves_sublist supports props :
  (tagName <$> propertyLeaves supports props) `sublist_of` supports.
Proof.
  unfold propertyLeaves. generalize (copiedString props). intros copied.
  induction supports as [|k l IH]; [constructor|].
  cbn [omap list_omap]. destruct (copied k) as [s|]; simpl.
  - by apply sublist_skip.
  - by apply sublist_cons.
Qed.

Lemma copiedString_intro props key s :
  Get props key = VString s → s ≠ "" → copiedString props key = Some s.
Proof.
  intros Hget Hne. destruct props as [| |b|n|s'|fields]; try discriminate.
  simpl in *. destruct (fields !! key) as [[| |b|n|s'|fs]|]; try discriminate.
  simpl in Hget. injection Hget as ->.
  by destruct (String.eqb_spec s "").
Qed.

Lemma numberLeaf_sublist tag (o : option number) :
  (tagName <$> numberLeaf tag o) `sublist_of` [tag].
Proof. destruct o; simpl; [by apply sublist_skip | by apply sublist_cons]. Qed.

(** X10.  The leaves copied from a property bag come in the order of the
    whitelist, whatever the order of the keys in the bag, with at most one
    leaf per whitelisted key. *)
Theorem copied_leaves_follow_the_whitelist el supports props :
  ∃ leaves,
    childNodes (addSupportedPropertiesFromObject el supports props)
    = childNodes el ++ (ElementNode <$> leaves) ∧
    (tagName <$> leaves) `sublist_of` supports ∧
    length leaves ≤ length supports.
Proof.
  exists (propertyLeaves supports props). split_and!.
  - by rewrite addSupportedPropertiesFromObject_leaves.
  - apply propertyLeaves_sublist.
  - rewrite <- (length_fmap tagName). apply sublist_length, propertyLeaves_sublist.
Qed.

(** X11.  Every key of the whitelist under which the bag holds a non-empty
    string is copied: its leaf, holding that very string, is among the
    children of the element afterwards. *)
Theorem whitelisted_strings_are_copied el supports props key s :
  key ∈ supports → Get props key = VString s → s ≠ "" →
  leaf key s ∈ children (addSupportedPropertiesFromObject el supports props).
Proof.
  intros Hin Hget Hne.
  rewrite addSupportedPropertiesFromObject_leaves, children_appendChildren.
  apply elem_of_app. right. unfold propertyLeaves.
  apply list_elem_of_omap. exists key. split; [exact Hin|].
  by rewrite (copiedString_intro props key s Hget Hne).
Qed.

(** X12.  The children of a [wpt] or [trkpt] come in the order [ele],
    [time], [name], [desc], [src], [type], each at most once. *)
Theorem waypoint_children_are_ordered type position props :
  (tagName <$> children (createPt type position props))
    `sublist_of` ["ele"; "time"; "name"; "desc"; "src"; "type"].
Proof.
  rewrite children_createPt, !fmap_app.
  change ["ele"; "time"; "name"; "desc"; "src"; "type"]
    with (["ele"] ++ ["time"] ++ pointSupports).
  repeat apply sublist_app.
  - apply numberLeaf_sublist.
  - apply numberLeaf_sublist.
  - apply propertyLeaves_sublist.
Qed.

(** X13.  In every [trk] of the returned document the copied property
    leaves come first, in the order [name], [desc], [src], [type], and the
    [trkseg] elements after them; a [trk] has no other child. *)
Theorem track_leaves_precede_segments geoJson options :
  Forall (fun trk =>
            ∃ leaves segments,
              children trk = leaves ++ segments ∧
              (tagName <$> leaves) `sublist_of` ["name"; "desc"; "src"; "type"] ∧
              Forall (fun seg => tagName seg = "trkseg") segments)
         (elementsNamed "trk" (GeoJsonToGpx geoJson options)).
Proof.
  rewrite elementsNamed_trk. apply Forall_flat_map, Forall_forall.
  intros feature _.
  assert (Htrk : ∀ props (segments : list (list (@Position number))),
    ∃ leaves segs,
      children (appendChildren (createTrk props) (createTrkSeg <$> segments))
      = leaves ++ segs ∧
      (tagName <$> leaves) `sublist_of` ["name"; "desc"; "src"; "type"] ∧
      Forall (fun seg => tagName seg = "trkseg") segs).
  { intros props segments.
    exists (propertyLeaves pointSupports props), (createTrkSeg <$> segments).
    split_and!.
    - by rewrite children_appendChildren, children_createTrk.
    - apply propertyLeaves_sublist.
    - apply Forall_fmap, Forall_forall. intros cs _.
      apply tagName_createTrkSeg. }
  destruct feature as [g props]. destruct g as [c|cs|cs|cs|cs|cs|gs];
    try (by constructor).
  - unfold featureTrks, interpretFeature; simpl.
    rewrite forEach_pushWpt. constructor.
  - rewrite featureTrks_LineString. constructor; [|constructor].
    apply (Htrk props [cs]).
  - rewrite featureTrks_MultiLineString. constructor; [|constructor].
    apply Htrk.
Qed.

(** ** Edge cases of the coordinates *)

(** X14.  A position with fewer than two components still gives an
    element: its [lat] attribute reads undefined, and so does its [lon]
    when the position is empty. *)
Theorem missing_coordinates_read_undefined type position props options :
  length position < 2 →
  getAttribute (createPt type position props) "lat" = Some "undefined" ∧
  getAttribute (createPt type position props) "lon"
  = Some match position with
         | [] => "undefined"
         | lon :: _ => Number_toString lon
         end ∧
  elementsNamed "wpt"
    (GeoJsonToGpx (IsFeature (mkFeature (Point position) props)) options)
  = [createPt "wpt" position props].
Proof.
  intros Hshort. split_and!.
  - rewrite createPt_eq.
    destruct position as [|lon [|lat rest]]; [reflexivity..|simpl in Hshort; lia].
  - rewrite createPt_eq.
    destruct position as [|lon [|lat rest]]; [reflexivity..|simpl in Hshort; lia].
  - by rewrite elementsNamed_wpt.
Qed.

(** X15.  Only the first four components of a position are read: the
    element of a position is that of its first four components. *)
Theorem components_beyond_the_fourth_are_ignored type position props options :
  createPt type (take 4 position) props = createPt type position props ∧
  GeoJsonToGpx (IsFeature (mkFeature (Point (take 4 position)) props)) options
  = GeoJsonToGpx (IsFeature (mkFeature (Point position) props)) options.
Proof.
  assert (Hpt : ∀ ty, createPt ty (take 4 position) props
                      = createPt ty position props).
  { intros ty. rewrite !createPt_eq. by rewrite !lookup_take_lt by lia. }
  split; [apply Hpt|].
  rewrite !GeoJsonToGpx_eq. unfold rootOf. cbn [featuresOf flat_map].
  by rewrite !featureWpts_Point, Hpt.
Qed.

(** X16.  Empty geometries: a [MultiPoint] without coordinates gives
    nothing, like an empty collection; a [LineString] without coordinates
    still gives a [trk], holding one empty [trkseg]; a [MultiLineString]
    without lines still gives a [trk], holding no [trkseg] at all. *)
Theorem empty_geometries_still_convert props options :
  GeoJsonToGpx (IsFeature (mkFeature (MultiPoint []) props)) options
  = GeoJsonToGpx (IsFeatureCollection []) options ∧
  elementsNamed "trk"
    (GeoJsonToGpx (IsFeature (mkFeature (LineString []) props)) options)
  = [appendChild (createTrk props)
       (ElementNode (mkElement GPX_NS "trkseg" [] []))] ∧
  elementsNamed "trk"
    (GeoJsonToGpx (IsFeature (mkFeature (MultiLineString []) props)) options)
  = [createTrk props] ∧
  childrenNamed "trkseg" (createTrk props) = [].
Proof.
  rewrite !elementsNamed_trk. split_and!; try reflexivity.
  unfold childrenNamed. rewrite children_createTrk.
  apply filter_propertyLeaves. unfold pointSupports. not_listed.
Qed.

(** ** The track points of the document *)

Lemma filter_flat_map {A} (p : Element → bool) (f : A → list Element)
    (l : list A) :
  List.filter p (flat_map f l) = flat_map (fun x => List.filter p (f x)) l.
Proof.
  induction l as [|x l IH]; [done|]. cbn [flat_map].
  by rewrite List.filter_app, IH.
Qed.

Lemma flat_map_flat_map {A} (f : A → list Element) (l : list A) :
  flat_map elementsOf (flat_map f l)
  = flat_map (fun x => flat_map elementsOf (f x)) l.
Proof.
  induction l as [|x l IH]; [done|]. cbn [flat_map].
  by rewrite flat_map_app, IH.
Qed.

Lemma tagsWithin_filter_none tag tags (l : list Element) :
  tag ∉ tags → Forall (tagsWithin tags) l →
  List.filter (hasTag tag) (flat_map elementsOf l) = [].
Proof.
  intros Hnot Hl. apply Forall_flat_map in Hl. revert Hl.
  generalize (flat_map elementsOf l). intros xs Hxs.
  induction Hxs as [|x xs Hx _ IH]; [done|]. cbn [List.filter].
  unfold hasTag at 1. destruct (String.eqb_spec (tagName x) tag) as [Heq|_].
  - by rewrite Heq in Hx.
  - exact IH.
Qed.

Lemma trkpts_of_createTrkSeg (coordinates : list (@Position number)) :
  List.filter (hasTag "trkpt") (elementsOf (createTrkSeg coordinates))
  = (fun point => createPt "trkpt" point VUndefined) <$> coordinates.
Proof.
  rewrite createTrkSeg_eq, elementsOf_mkElement. cbn [List.filter].
  change (hasTag "trkpt" (mkElement GPX_NS "trkseg" [] _)) with false.
  cbv iota. apply (rooted_filter_self "trkpt" ptInnerTags).
  - unfold ptInnerTags. not_listed.
  - apply Forall_fmap, Forall_forall. intros point _. apply rooted_createPt.
Qed.

Lemma trkpts_of_trk props (segments : list (list (@Position number))) :
  List.filter (hasTag "trkpt")
    (elementsOf (appendChildren (createTrk props) (createTrkSeg <$> segments)))
  = (fun point => createPt "trkpt" point VUndefined) <$> concat segments.
Proof.
  rewrite createTrk_eq. unfold appendChildren.
  cbn [namespaceURI tagName attributes childNodes].
  rewrite <- fmap_app, elementsOf_mkElement. cbn [List.filter].
  change (hasTag "trkpt" (mkElement GPX_NS "trk" [] _)) with false.
  cbv iota. rewrite flat_map_app, List.filter_app.
  rewrite (tagsWithin_filter_none "trkpt" pointSupports)
    by ((unfold pointSupports; not_listed)
        || (apply tagsWithin_propertyLeaves; done)).
  cbn [app]. induction segments as [|cs segs IH]; [done|].
  cbn [fmap list_fmap flat_map concat].
  by rewrite List.filter_app, trkpts_of_createTrkSeg, fmap_app, IH.
Qed.

Lemma trkpts_of_feature feature :
  List.filter (hasTag "trkpt") (flat_map elementsOf (featureTrks feature))
  = featureTrkpts feature.
Proof.
  destruct feature as [g props]. destruct g as [c|cs|cs|cs|cs|cs|gs];
    try reflexivity.
  - unfold featureTrks, interpretFeature; simpl. by rewrite forEach_pushWpt.
  - rewrite featureTrks_LineString. cbn [flat_map]. rewrite app_nil_r.
    etrans; [apply (trkpts_of_trk props [cs])|].
    unfold featureTrkpts. cbn [geometry concat]. by rewrite app_nil_r.
  - rewrite featureTrks_MultiLineString. cbn [flat_map]. rewrite app_nil_r.
    apply trkpts_of_trk.
Qed.

(** X17.  The [trkpt] elements of the returned document, in document
    order, are one per position of the line features, in the order of the
    features, of their lines and of the positions of a line; no position
    is dropped or repeated, and nothing else gives a [trkpt]. *)
Theorem track_points_enumerate_the_positions geoJson options :
  elementsNamed "trkpt" (GeoJsonToGpx geoJson options)
  = flat_map featureTrkpts (featuresOf geoJson).
Proof.
  unfold elementsNamed. rewrite allElements_GeoJsonToGpx.
  cbn [List.filter hasTag tagName rootOf String.eqb Ascii.eqb Bool.eqb].
  rewrite !List.filter_app.
  rewrite (rooted_filter_none "trkpt" "metadata" metadataInnerTags
             (metadataOf options))
    by (done || (unfold metadataInnerTags; not_listed)
        || apply metadataOf_rooted).
  rewrite (rooted_filter_none "trkpt" "wpt" ptInnerTags (flat_map featureWpts _))
    by (done || (unfold ptInnerTags; not_listed)
        || apply collected_wpts_rooted).
  cbn [app]. rewrite flat_map_flat_map, filter_flat_map.
  apply flat_map_ext. intros feature. apply trkpts_of_feature.
Qed.

(** ** What depends on what *)

(** X18.  The [wpt] and [trk] elements of the document depend on the
    input only, not on the options; the [metadata] element and the
    attributes of the root depend on the options only, not on the
    input. *)
Theorem options_and_input_do_not_interfere geoJson geoJson' options options'
    (name : string) :
  elementsNamed "wpt" (GeoJsonToGpx geoJson options)
  = elementsNamed "wpt" (GeoJsonToGpx geoJson options') ∧
  elementsNamed "trk" (GeoJsonToGpx geoJson options)
  = elementsNamed "trk" (GeoJsonToGpx geoJson options') ∧
  elementsNamed "metadata" (GeoJsonToGpx geoJson options)
  = elementsNamed "metadata" (GeoJsonToGpx geoJson' options) ∧
  rootAttribute (GeoJsonToGpx geoJson options) name
  = rootAttribute (GeoJsonToGpx geoJson' options) name.
Proof.
  rewrite !elementsNamed_wpt, !elementsNamed_trk, !elementsNamed_metadata.
  unfold rootAttribute. rewrite !documentElement_GeoJsonToGpx.
  by split_and!.
Qed.

(** X19.  The two helpers that work on a parent element only append to
    it: the tag, the namespace, the attributes and the child nodes the
    parent had are kept, in place, and at most one child is added at the
    end. *)
Theorem helpers_only_append parent tag content (link : Link) :
  (tagName (createTagInParentElement parent tag content) = tagName parent ∧
   namespaceURI (createTagInParentElement parent tag content)
   = namespaceURI parent ∧
   attributes (createTagInParentElement parent tag content)
   = attributes parent ∧
   ∃ added,
     childNodes (createTagInParentElement parent tag content)
     = childNodes parent ++ added ∧ length added ≤ 1) ∧
  (tagName (createLinkInParentElement parent link) = tagName parent ∧
   namespaceURI (createLinkInParentElement parent link)
   = namespaceURI parent ∧
   attributes (createLinkInParentElement parent link) = attributes parent ∧
   ∃ added,
     childNodes (createLinkInParentElement parent link)
     = childNodes parent ++ added ∧ length added ≤ 1).
Proof.
  rewrite createTagInParentElement_optLeaf, createLinkInParentElement_eq.
  split; split_and!; try reflexivity.
  - exists (ElementNode <$> optLeaf tag content). split; [reflexivity|].
    rewrite length_fmap. destruct content; simpl; lia.
  - exists (ElementNode <$> linkOf (Some link)). split; [reflexivity|].
    rewrite length_fmap. unfold linkOf.
    destruct (nonEmpty (link_href link)); simpl; lia.
Qed.

(** ** Counting *)

Lemma length_featureWpts feature :
  length (featureWpts feature) = wptCount feature.
Proof.
  destruct feature as [g props]. destruct g as [c|cs|cs|cs|cs|cs|gs];
    try reflexivity.
  by rewrite featureWpts_MultiPoint, length_fmap.
Qed.

Lemma length_featureTrks feature :
  length (featureTrks feature) = if isLine feature then 1 else 0.
Proof.
  destruct feature as [g props]. destruct g as [c|cs|cs|cs|cs|cs|gs];
    try reflexivity.
  unfold featureTrks, interpretFeature; simpl. by rewrite forEach_pushWpt.
Qed.

(** X20.  The document has one [wpt] per [Point] feature and per
    coordinate of a [MultiPoint] feature, one [trk] per [LineString] or
    [MultiLineString] feature, and at most one [metadata] element; the
    root has no other child. *)
Theorem elements_are_counted_by_the_features geoJson options :
  length (elementsNamed "wpt" (GeoJsonToGpx geoJson options))
  = sum_list (wptCount <$> featuresOf geoJson) ∧
  length (elementsNamed "trk" (GeoJsonToGpx geoJson options))
  = length (List.filter isLine (featuresOf geoJson)) ∧
  length (elementsNamed "metadata" (GeoJsonToGpx geoJson options)) ≤ 1 ∧
  ∃ root,
    documentElement (GeoJsonToGpx geoJson options) = Some root ∧
    length (childNodes root)
    = length (elementsNamed "metadata" (GeoJsonToGpx geoJson options))
      + length (elementsNamed "wpt" (GeoJsonToGpx geoJson options))
      + length (elementsNamed "trk" (GeoJsonToGpx geoJson options)).
Proof.
  rewrite !elementsNamed_wpt, !elementsNamed_trk, !elementsNamed_metadata.
  split_and!.
  - induction (featuresOf geoJson) as [|f fs IH]; [done|].
    cbn [flat_map fmap list_fmap sum_list sum_list_with].
    by rewrite length_app, IH, length_featureWpts.
  - induction (featuresOf geoJson) as [|f fs IH]; [done|].
    cbn [flat_map List.filter]. rewrite length_app, IH, length_featureTrks.
    by destruct (isLine f).
  - destruct options as [[c v [m|]]|]; simpl; lia.
  - exists (rootOf geoJson options). rewrite documentElement_GeoJsonToGpx.
    split; [reflexivity|]. unfold rootOf. cbn [childNodes].
    rewrite length_fmap, !length_app. lia.
Qed.

(** X21.  The tags of the returned document are drawn from a fixed
    vocabulary: no element of any other tag is ever produced. *)
Theorem tags_are_drawn_from_a_fixed_vocabulary geoJson options :
  Forall (fun e =>
            tagName e
            ∈ ["gpx"; "metadata"; "author"; "copyright"; "link"; "wpt"; "trk";
               "trkseg"; "trkpt"; "ele"; "time"; "name"; "desc"; "src";
               "type"; "text"; "email"; "year"; "license"; "keywords"])
         (allElements (GeoJsonToGpx geoJson options)).
Proof.
  eapply Forall_impl; [apply shaped_document|].
  intros e He. destruct He as [tag text Htag|tag l Htag|tag lat lon l Htag
                               |href l _|l|author l _|creator l _];
    cbn [tagName leaf]; try listed.
  - unfold leafTags in Htag.
    repeat (apply elem_of_cons in Htag as [->|Htag]; [listed|]).
    by apply elem_of_nil in Htag.
  - repeat (apply elem_of_cons in Htag as [->|Htag]; [listed|]).
    by apply elem_of_nil in Htag.
  - repeat (apply elem_of_cons in Htag as [->|Htag]; [listed|]).
    by apply elem_of_nil in Htag.
Qed.

End Further.

(** * The claims on the sample inputs *)

(** A track given before a waypoint: the waypoint comes first in the
    document; of the properties of the waypoint only [name] is copied. *)
Example trail_then_camp :
  GeoJsonToGpx (H:=Z_JsNumber)
    (IsFeatureCollection [trailFeature; polygonFeature; campFeature])
    (Some (mkOptions (Some "test") None None))
  = mkDocument GPX_NS
      [xmlDeclaration;
       ElementNode
         (mkElement GPX_NS "gpx" [("version", "1.1"); ("creator", "test")]
            [ElementNode
               (mkElement GPX_NS "wpt" [("lat", "46"); ("lon", "-109")]
                  [ElementNode (leaf "ele" "3205");
                   ElementNode (leaf "name" "Camp")]);
             ElementNode
               (mkElement GPX_NS "trk" []
                  [ElementNode (leaf "name" "Trail");
                   ElementNode
                     (mkElement GPX_NS "trkseg" []
                        [ElementNode
                           (mkElement GPX_NS "trkpt"
                              [("lat", "0"); ("lon", "0")] []);
                         ElementNode
                           (mkElement GPX_NS "trkpt"
                              [("lat", "1"); ("lon", "1")] [])])])])].
Proof. vm_compute. reflexivity. Qed.

(** The metadata of [blankAuthorMetadata]. *)
Example blank_author_metadata :
  createMetadata (H:=Z_JsNumber) blankAuthorMetadata
  = mkElement GPX_NS "metadata" []
      [ElementNode (mkElement GPX_NS "author" [] []);
       ElementNode
         (mkElement GPX_NS "copyright" [] [ElementNode (leaf "year" "2024")])].
Proof. reflexivity. Qed.

(** C4 on a polygon between the waypoint and the track. *)

Lemma unsupported_input_is_omitted_witness :
  (geometryType (geometry polygonFeature)
     ∉ ["Point"; "MultiPoint"; "LineString"; "MultiLineString"]) ∧
  GeoJsonToGpx (H:=Z_JsNumber)
    (IsFeatureCollection [campFeature; polygonFeature; trailFeature]) None
  = GeoJsonToGpx (H:=Z_JsNumber)
      (IsFeatureCollection [campFeature; trailFeature]) None.
Proof.
  assert (Hunsupported :
    geometryType (geometry polygonFeature)
      ∉ ["Point"; "MultiPoint"; "LineString"; "MultiLineString"])
    by (simpl; not_listed).
  split; [exact Hunsupported|].
  exact (proj1 (proj2 (proj2
    (unsupported_input_is_omitted (H:=Z_JsNumber)
       (IsFeature polygonFeature) (geometry polygonFeature) polygonFeature
       [campFeature] [trailFeature] None (mkCollector [] [])
       Hunsupported)))).
Defined.

(** C5 on the properties of the waypoint: [desc] is empty, [src] a number
    and [colour] not in the whitelist. *)
Lemma only_whitelisted_strings_are_copied_witness :
  children (createPt (H:=Z_JsNumber) "wpt" [(-109)%Z; 46%Z; 3205%Z]
              (properties campFeature))
  = [leaf "ele" "3205"; leaf "name" "Camp"].
Proof.
  pose proof (only_whitelisted_strings_are_copied (H:=Z_JsNumber)
    (createElementWithNS "wpt") pointSupports (properties campFeature)
    ∅ ∅ "wpt" [(-109)%Z; 46%Z; 3205%Z] (createElementWithNS "metadata")
    (mkLink None None None)) as Hcopy.
  cbv zeta in Hcopy.
  destruct Hcopy as (_ & _ & _ & _ & _ & _ & Hpt & _).
  rewrite Hpt. vm_compute. reflexivity.
Defined.

(** C10 on the empty [desc] of the waypoint. *)
Lemma empty_string_is_not_copied_witness :
  campProperties !! "desc" = Some (VString "") ∧
  typeof (@VNull Z) ≠ "string" ∧
  addSupportedPropertiesFromObject (H:=Z_JsNumber)
    (createElementWithNS "wpt") pointSupports (VObject campProperties)
  = addSupportedPropertiesFromObject (H:=Z_JsNumber)
      (createElementWithNS "wpt") pointSupports
      (VObject (delete "desc" campProperties)).
Proof.
  assert (Hempty : campProperties !! "desc" = Some (VString ""))
    by (vm_compute; reflexivity).
  assert (Hother : typeof (@VNull Z) ≠ "string") by (simpl; discriminate).
  split; [exact Hempty|]. split; [exact Hother|].
  exact (proj1 (proj2
    (empty_string_is_not_copied (H:=Z_JsNumber)
       (createElementWithNS "wpt") pointSupports campProperties "desc" VNull
       (createElementWithNS "metadata") None None None Hempty Hother))).
Defined.

(** C6 as it was stated fails on [blankAuthorMetadata]: the copyright
    author is defined, yet the [copyright] element has no [author]
    attribute; the link of the author is an object, yet the [author]
    element has no [link] child. *)
Lemma metadata_blank_author_counterexample :
  ∃ author copyright,
    children (createMetadata (H:=Z_JsNumber) blankAuthorMetadata)
    = [author; copyright] ∧
    tagName author = "author" ∧ tagName copyright = "copyright" ∧
    (copyright_author <$> meta_copyright blankAuthorMetadata) = Some (Some "") ∧
    getAttribute copyright "author" = None ∧
    is_Some (meta_author blankAuthorMetadata ≫= person_link) ∧
    childrenNamed "link" author = [].
Proof.
  exists (mkElement GPX_NS "author" [] []),
         (mkElement GPX_NS "copyright" [] [ElementNode (leaf "year" "2024")]).
  split_and!; try reflexivity. by eexists.
Qed.

(** * The further properties on the sample inputs *)

(** X11 on the [name] of the waypoint. *)
Lemma whitelisted_strings_are_copied_witness :
  ("name" ∈ pointSupports) ∧
  Get (VObject campProperties) "name" = VString "Camp" ∧
  ("Camp" ≠ "") ∧
  leaf "name" "Camp"
    ∈ children
        (addSupportedPropertiesFromObject (H:=Z_JsNumber)
           (createElementWithNS "wpt") pointSupports (VObject campProperties)).
Proof.
  assert (Hin : "name" ∈ pointSupports) by (unfold pointSupports; listed).
  assert (Hget : Get (VObject campProperties) "name" = VString "Camp")
    by (vm_compute; reflexivity).
  assert (Hne : "Camp" ≠ "") by discriminate.
  split_and!; try assumption.
  exact (whitelisted_strings_are_copied (H:=Z_JsNumber)
           (createElementWithNS "wpt") pointSupports (VObject campProperties)
           "name" "Camp" Hin Hget Hne).
Defined.

(** X14 on a position that holds a longitude only. *)
Lemma missing_coordinates_read_undefined_witness :
  length [5%Z] < 2 ∧
  getAttribute (createPt (H:=Z_JsNumber) "wpt" [5%Z] VNull) "lat"
  = Some "undefined" ∧
  getAttribute (createPt (H:=Z_JsNumber) "wpt" [5%Z] VNull) "lon" = Some "5".
Proof.
  assert (Hshort : length [5%Z] < 2) by (simpl; lia).
  split; [exact Hshort|].
  pose proof (missing_coordinates_read_undefined (H:=Z_JsNumber)
                "wpt" [5%Z] VNull None Hshort) as (Hlat & Hlon & _).
  split; [exact Hlat | exact Hlon].
Defined.
